(** * GPA calculator: the [Window] component of kieranegan23/GPA-CALC

    A shallow embedding of the logic of the React component [Window]
    (class roster, add/edit form, GPA and credit totals, localStorage
    persistence) and the properties of its specification.

    JavaScript values are modelled as the program has them:
    - a [number] is an IEEE 754 binary64 value, given by the Standard
      Library's executable specification [spec_float] (precision 53,
      [emax] 1024), so that rounding in [*], [+] and [/] is the rounding the
      program performs;
    - a [string] is a [string]; template literals are concatenations;
    - a property that may be [undefined] is an [option];
    - React state is a record, event handlers are state transformers, and
      the [useEffect] hooks are functions run after a handler that has
      called the matching setter. *)

From Stdlib Require Import ZArith QArith List Bool String Ascii Lia.
From Stdlib Require Import DecimalString.
From Stdlib Require Import Floats.SpecFloat.
Import ListNotations.

Close Scope Q_scope.
Open Scope string_scope.
Open Scope Z_scope.

(** ** JavaScript numbers *)

Module JS.

Definition number : Type := spec_float.

Definition prec : Z := 53.
Definition emax : Z := 1024.

Definition NaN : number := S754_nan.
Definition Infinity : number := S754_infinity false.
Definition zero : number := S754_zero false.

(** The number denoted by an integer literal (rounded to nearest, ties to
    even, when the integer has more than 53 significant bits). *)
Definition of_Z (z : Z) : number := binary_normalize prec emax z 0 false.

Definition add (x y : number) : number := SFadd prec emax x y.
Definition mul (x y : number) : number := SFmul prec emax x y.
Definition div (x y : number) : number := SFdiv prec emax x y.

(** The number denoted by the decimal literal [m / 10^k], e.g. [3.67] is
    [decimal 367 2]: both operands are exact and the division rounds once,
    which is the rounding of the literal. *)
Definition decimal (m : Z) (k : Z) : number := div (of_Z m) (of_Z (10 ^ k)).

(** [x === y] on two numbers: [NaN] differs from everything, the two zeros
    are equal. *)
Definition strict_eq (x y : number) : bool := SFeqb x y.

(** [x < y]. *)
Definition lt (x y : number) : bool := SFltb x y.

(** ToBoolean on a number: [+0], [-0] and [NaN] are falsy. *)
Definition truthy (x : number) : bool :=
  match x with
  | S754_zero _ | S754_nan => false
  | _ => true
  end.

(** ToBoolean on a string: only the empty string is falsy. *)
Definition truthy_string (s : string) : bool :=
  match s with
  | EmptyString => false
  | String _ _ => true
  end.

(** [Math.floor]. A finite number is [(-1)^s * m * 2^e]; [Z.shiftr] rounds
    towards minus infinity. *)
Definition Math_floor (x : number) : number :=
  match x with
  | S754_finite s m e =>
      if 0 <=? e then x
      else
        match Z.shiftr (cond_Zopp s (Zpos m)) (- e) with
        | Z0 => S754_zero s
        | q => binary_normalize prec emax q 0 s
        end
  | _ => x
  end.

(** *** Number to string conversions *)

Definition digits (n : Z) : string := NilZero.string_of_uint (N.to_uint (Z.to_N n)).

Fixpoint zeros (k : nat) : string :=
  match k with
  | O => ""
  | S k' => "0" ++ zeros k'
  end.

Definition pow10 (k : Z) : Z := 10 ^ Z.max k 0.
Definition pow2 (k : Z) : Z := 2 ^ Z.max k 0.

(** Comparison of [a * 10^p] with [b * 2^q] for integers [p], [q] of either
    sign, by cross multiplication. *)
Definition compare_scaled (a p b q : Z) : comparison :=
  Z.compare (a * pow10 p * pow2 (- q)) (b * pow2 q * pow10 (- p)).

(** [floor (b * 2^q / 10^p)]. *)
Definition floor_scaled (b q p : Z) : Z :=
  (b * pow2 q * pow10 (- p)) / (pow10 p * pow2 (- q)).

(** The integer [n] with [10^(n-1) <= m * 2^e < 10^n], found from the binary
    length by at most a few corrections. *)
Fixpoint adjust_exp10 (fuel : nat) (m e n : Z) : Z :=
  match fuel with
  | O => n
  | S fuel' =>
      match compare_scaled 1 n m e with
      | Gt =>
          match compare_scaled 1 (n - 1) m e with
          | Gt => adjust_exp10 fuel' m e (n - 1)
          | _ => n
          end
      | _ => adjust_exp10 fuel' m e (n + 1)
      end
  end.

Definition exp10 (m : positive) (e : Z) : Z :=
  let b := Zpos (digits2_pos m) + e in
  adjust_exp10 8 (Zpos m) e ((b * 30103) / 100000).

(** The rounding interval of the positive double [m * 2^e], in units of
    [2^(e-2)]: every real strictly between the bounds (and the bounds
    themselves when [m] is even) rounds to this double. *)
Definition lower_bound (m : positive) (e : Z) : Z :=
  if (Zpos m =? 2 ^ (prec - 1)) && (3 - emax - prec <? e)
  then 4 * Zpos m - 1 else 4 * Zpos m - 2.
Definition upper_bound (m : positive) : Z := 4 * Zpos m + 2.

Definition in_interval (m : positive) (e : Z) (s p : Z) : bool :=
  let even := Z.even (Zpos m) in
  let lo := compare_scaled s p (lower_bound m e) (e - 2) in
  let hi := compare_scaled s p (upper_bound m) (e - 2) in
  match lo, hi with
  | Gt, Lt => true
  | Eq, _ => even
  | _, Eq => even
  | _, _ => false
  end.

(** The candidates with [k] digits: the two multiples of [10^(n-k)] around
    the value; when both round to the value the closer one is taken, and the
    even one on a tie. *)
Definition candidate (m : positive) (e n k : Z) : option Z :=
  let p := n - k in
  let s0 := floor_scaled (Zpos m) e p in
  let s1 := s0 + 1 in
  let ok0 := in_interval m e s0 p && (0 <? s0) in
  let ok1 := in_interval m e s1 p in
  match ok0, ok1 with
  | true, false => Some s0
  | false, true => Some s1
  | false, false => None
  | true, true =>
      (* distance to s0 against distance to s1, doubled:
         2x - 2 s0 10^p  ?  2 s1 10^p - 2x, i.e. 4x ? (2 s0 + 1) * 2 * 10^p *)
      match compare_scaled (2 * s0 + 1) p (2 * Zpos m) e with
      | Gt => Some s0
      | Lt => Some s1
      | Eq => Some (if Z.even s0 then s0 else s1)
      end
  end.

Fixpoint shortest (fuel : nat) (m : positive) (e n k : Z) : Z * Z :=
  match fuel with
  | O => (floor_scaled (Zpos m) e (n - k), k)
  | S fuel' =>
      match candidate m e n k with
      | Some s => (s, k)
      | None => shortest fuel' m e n (k + 1)
      end
  end.

(** Number::toString on a positive finite number: the digits [s], their
    number [k] and the decimal exponent [n] with value [s * 10^(n-k)]. *)
Definition shortest_decimal (m : positive) (e : Z) : Z * Z * Z :=
  let n := exp10 m e in
  let '(s, k) := shortest 20 m e n 1 in
  if s =? 10 ^ k then (10 ^ (k - 1), k, n + 1) else (s, k, n).

Definition insert_point (ds : string) (at_ : nat) : string :=
  substring 0 at_ ds ++ "." ++ substring at_ (String.length ds - at_) ds.

Definition format_decimal (s k n : Z) : string :=
  let ds := digits s in
  if (k <=? n) && (n <=? 21) then ds ++ zeros (Z.to_nat (n - k))
  else if (0 <? n) && (n <=? 21) then insert_point ds (Z.to_nat n)
  else if (-6 <? n) && (n <=? 0) then "0." ++ zeros (Z.to_nat (- n)) ++ ds
  else
    let ex := (if 0 <=? n - 1 then "+" else "-") ++ digits (Z.abs (n - 1)) in
    if k =? 1 then ds ++ "e" ++ ex
    else insert_point ds 1 ++ "e" ++ ex.

Definition toString (x : number) : string :=
  match x with
  | S754_nan => "NaN"
  | S754_zero _ => "0"
  | S754_infinity s => (if s then "-" else "") ++ "Infinity"
  | S754_finite s m e =>
      let '(d, k, n) := shortest_decimal m e in
      (if s then "-" else "") ++ format_decimal d k n
  end.

(** [n / 10^f] written with exactly [f] digits after the point, for an
    integer [n >= 0]. *)
Definition fixed_point (n : Z) (f : nat) : string :=
  let ds := digits n in
  let ds := zeros (S f - String.length ds) ++ ds in
  match f with
  | O => ds
  | S _ => insert_point ds (String.length ds - f)
  end.

(** [x.toFixed(f)] for [0 <= f <= 100]: the integer [n] nearest to
    [|x| * 10^f], the larger one on a tie, printed with [f] digits after the
    point; numbers from [10^21] on, infinities and [NaN] print as
    [toString] prints them. *)
Definition toFixed (x : number) (f : nat) : string :=
  match x with
  | S754_finite s m e =>
      match compare_scaled 1 21 (Zpos m) e with
      | Gt =>
          let fz := Z.of_nat f in
          let n :=
            if 0 <=? e then Zpos m * 10 ^ fz * 2 ^ e
            else (2 * Zpos m * 10 ^ fz + 2 ^ (- e)) / 2 ^ (1 - e) in
          (if s then "-" else "") ++ fixed_point n f
      | _ => toString x
      end
  | _ => toString x
  end.

End JS.

Import JS.

(** ** The data model *)

(** A class entry as it exists at run time. The interface [ClassEntry]
    declares [id], [name], [grade] and [credits] and an optional [semester];
    the draft is a [Partial<ClassEntry>], it is cast to [ClassEntry] when an
    edit is saved, and the roster read back from storage is whatever
    [JSON.parse] returns, so every property may be [undefined]. *)
Record ClassEntry : Type := {
  id : option number;
  name : option string;
  grade : option string;
  credits : option number;
  semester : option string
}.

(** [v ? ... : ...] on a property that may be [undefined]. *)
Definition truthy_num (v : option number) : bool :=
  match v with
  | Some x => truthy x
  | None => false
  end.

Definition truthy_str (v : option string) : bool :=
  match v with
  | Some s => truthy_string s
  | None => false
  end.

(** [a === b] on two [id] properties: [undefined] equals only [undefined]. *)
Definition same_id (a b : option number) : bool :=
  match a, b with
  | Some x, Some y => strict_eq x y
  | None, None => true
  | _, _ => false
  end.

(** ToNumber on the result of a table lookup: [undefined] becomes [NaN]. (So
    does every member a key can find on [Object.prototype].) *)
Definition to_number (v : option number) : number :=
  match v with
  | Some x => x
  | None => NaN
  end.

(** ** Term names and abbreviations *)

Definition getTermAbbreviation (fullTerm : string) : string :=
  if String.eqb fullTerm "Spring" then "SP"
  else if String.eqb fullTerm "Fall" then "FA"
  else if String.eqb fullTerm "Summer" then "SM"
  else if String.eqb fullTerm "Winter" then "WN"
  else fullTerm.

Definition getFullTermName (abbreviation : string) : string :=
  if String.eqb abbreviation "SP" then "Spring"
  else if String.eqb abbreviation "FA" then "Fall"
  else if String.eqb abbreviation "SM" then "Summer"
  else if String.eqb abbreviation "WN" then "Winter"
  else abbreviation.

(** The options of the year selector: ["00"] to ["99"]. *)
Definition years : list string :=
  map (fun i => if (i <? 10)%nat then "0" ++ digits (Z.of_nat i)
                else digits (Z.of_nat i))
      (seq 0 100).

(** [s.split(sep)] for a separator of one character. *)
Fixpoint split (sep : ascii) (s : string) : list string :=
  match s with
  | EmptyString => [EmptyString]
  | String c rest =>
      if Ascii.eqb c sep then EmptyString :: split sep rest
      else
        match split sep rest with
        | tok :: toks => String c tok :: toks
        | [] => [String c EmptyString]
        end
  end.

(** The [semester] built in [handleSaveClass] from the two selectors. *)
Definition encodeSemester (term year : string) : string :=
  if truthy_string term && truthy_string year
  then getTermAbbreviation term ++ " " ++ year
  else "".

(** ** GPA and total credits *)

Definition gradePoints : list (string * number) :=
  [ ("A", decimal 40 1); ("A-", decimal 367 2); ("B+", decimal 333 2);
    ("B", decimal 30 1); ("B-", decimal 267 2); ("C+", decimal 233 2);
    ("C", decimal 20 1); ("C-", decimal 167 2); ("D", decimal 10 1);
    ("F", decimal 0 1) ].

Fixpoint lookup {A : Type} (key : string) (table : list (string * A)) : option A :=
  match table with
  | [] => None
  | (k, v) :: rest => if String.eqb key k then Some v else lookup key rest
  end.

(** The test [cls.grade && cls.credits] of the loop in [calculateGPA]. *)
Definition counted (cls : ClassEntry) : bool :=
  truthy_str (grade cls) && truthy_num (credits cls).

(** One turn of the [forEach] loop on the pair
    [(totalPoints, totalCredits)]. *)
Definition accumulate (acc : number * number) (cls : ClassEntry) : number * number :=
  let '(totalPoints, totalCredits) := acc in
  match grade cls, credits cls with
  | Some g, Some c =>
      if truthy_string g && truthy c
      then (add totalPoints (mul (to_number (lookup g gradePoints)) c),
            add totalCredits c)
      else acc
  | _, _ => acc
  end.

Definition is_whole (x : number) : bool := strict_eq x (Math_floor x).

Definition formatGPA (gpa : number) : string :=
  if is_whole gpa then toString gpa
  else if is_whole (mul gpa (of_Z 10)) then toFixed gpa 1
  else if is_whole (mul gpa (of_Z 100)) then toFixed gpa 2
  else toFixed gpa 3.

Definition calculateGPA (classes : list ClassEntry) : string :=
  match classes with
  | [] => "0"
  | _ =>
      let '(totalPoints, totalCredits) := fold_left accumulate classes (zero, zero) in
      if strict_eq totalCredits zero then "0"
      else formatGPA (div totalPoints totalCredits)
  end.

(** [cls.credits || 0]. *)
Definition creditsOrZero (cls : ClassEntry) : number :=
  match credits cls with
  | Some c => if truthy c then c else zero
  | None => zero
  end.

Definition getTotalCredits (classes : list ClassEntry) : number :=
  fold_left (fun sum cls => add sum (creditsOrZero cls)) classes zero.

(** ** Component state and event handlers *)

(** The values held by [useState], and the item stored in [localStorage]
    under the key ["gpa-calculator-classes"]: [None] while the key is absent,
    [Some r] once [JSON.stringify(r)] has been written. [alerts] records the
    calls of [alert]. *)
Record State : Type := {
  isModalOpen : bool;
  isEditMode : bool;
  classes : list ClassEntry;
  currentClass : ClassEntry;
  term : string;
  year : string;
  storage : option (list ClassEntry);
  alerts : list string
}.

(** The empty draft [{ name: "", grade: "", credits: undefined, semester: "" }]. *)
Definition emptyDraft : ClassEntry :=
  {| id := None; name := Some ""; grade := Some ""; credits := None;
     semester := Some "" |}.

Definition initialState : State :=
  {| isModalOpen := false; isEditMode := false; classes := [];
     currentClass := emptyDraft; term := ""; year := "";
     storage := None; alerts := [] |}.

(** A handler returns the next state and whether it has called [setClasses]
    (always with a fresh array), which is what makes React run the effect
    that depends on [classes] after the handler. *)
Definition handler : Type := State -> State * bool.

Definition handleOpenAddModal : handler := fun st =>
  ({| isModalOpen := true; isEditMode := false; classes := classes st;
      currentClass := emptyDraft; term := ""; year := "";
      storage := storage st; alerts := alerts st |}, false).

(** The branches of [handleOpenEditModal] that assign [term] and [year];
    with a non-empty [semester] that does not split in two, neither setter
    is called. *)
Definition parseSemester (cls : ClassEntry) (st : State) : string * string :=
  if truthy_str (semester cls)
  then
    match split " " (match semester cls with Some s => s | None => "" end) with
    | [abbr; yy] => (getFullTermName abbr, yy)
    | _ => (term st, year st)
    end
  else ("", "").

Definition handleOpenEditModal (cls : ClassEntry) : handler := fun st =>
  let '(term', year') := parseSemester cls st in
  ({| isModalOpen := true; isEditMode := true; classes := classes st;
      currentClass := cls; term := term'; year := year';
      storage := storage st; alerts := alerts st |}, false).

(** [{ ...currentClass, semester }]. *)
Definition withSemester (cur : ClassEntry) (sem : string) : ClassEntry :=
  {| id := id cur; name := name cur; grade := grade cur;
     credits := credits cur; semester := Some sem |}.

(** The conjunction tested by [isFormValid] and, negated, by the guard of
    [handleSaveClass]. *)
Definition isFormValid (st : State) : bool :=
  truthy_str (name (currentClass st)) && truthy_str (grade (currentClass st))
  && truthy_num (credits (currentClass st))
  && truthy_string (term st) && truthy_string (year st).

(** [now] is the value returned by [Date.now()]. *)
Definition handleSaveClass (now : number) : handler := fun st =>
  let cur := currentClass st in
  if negb (truthy_str (name cur)) || negb (truthy_str (grade cur))
     || negb (truthy_num (credits cur))
     || negb (truthy_string (term st)) || negb (truthy_string (year st))
  then (st, false)
  else
    let sem := encodeSemester (term st) (year st) in
    let classes' :=
      if isEditMode st && truthy_num (id cur)
      then map (fun cls => if same_id (id cls) (id cur)
                           then withSemester cur sem else cls)
               (classes st)
      else (classes st ++
            [ {| id := Some now; name := name cur; grade := grade cur;
                 credits := credits cur; semester := Some sem |} ])%list in
    ({| isModalOpen := false; isEditMode := isEditMode st; classes := classes';
        currentClass := emptyDraft; term := ""; year := "";
        storage := storage st; alerts := alerts st |}, true).

Definition handleDeleteClass (target : option number) : handler := fun st =>
  ({| isModalOpen := isModalOpen st; isEditMode := isEditMode st;
      classes := filter (fun cls => negb (same_id (id cls) target)) (classes st);
      currentClass := currentClass st; term := term st; year := year st;
      storage := storage st; alerts := alerts st |}, true).

Definition handleSave : handler := fun st =>
  ({| isModalOpen := isModalOpen st; isEditMode := isEditMode st;
      classes := classes st; currentClass := currentClass st;
      term := term st; year := year st;
      storage := Some (classes st);
      alerts := (alerts st ++ ["Data saved successfully!"])%list |}, false).

(** The form controls: the inputs write one property of the draft, the two
    semester selectors write [term] and [year], and Cancel (like dismissing
    the dialog) only closes the modal. *)
Definition setCurrentClass (cur : ClassEntry) : handler := fun st =>
  ({| isModalOpen := isModalOpen st; isEditMode := isEditMode st;
      classes := classes st; currentClass := cur;
      term := term st; year := year st;
      storage := storage st; alerts := alerts st |}, false).

Definition setTerm (t : string) : handler := fun st =>
  ({| isModalOpen := isModalOpen st; isEditMode := isEditMode st;
      classes := classes st; currentClass := currentClass st;
      term := t; year := year st;
      storage := storage st; alerts := alerts st |}, false).

Definition setYear (y : string) : handler := fun st =>
  ({| isModalOpen := isModalOpen st; isEditMode := isEditMode st;
      classes := classes st; currentClass := currentClass st;
      term := term st; year := y;
      storage := storage st; alerts := alerts st |}, false).

Definition setIsModalOpen (b : bool) : handler := fun st =>
  ({| isModalOpen := b; isEditMode := isEditMode st;
      classes := classes st; currentClass := currentClass st;
      term := term st; year := year st;
      storage := storage st; alerts := alerts st |}, false).

(** The effect declared with the dependency [[classes]]. *)
Definition autoSave (st : State) : State :=
  match classes st with
  | [] => st
  | _ :: _ =>
      {| isModalOpen := isModalOpen st; isEditMode := isEditMode st;
         classes := classes st; currentClass := currentClass st;
         term := term st; year := year st;
         storage := Some (classes st); alerts := alerts st |}
  end.

(** One user event: the handler, then the effect if [classes] was set. *)
Definition dispatch (h : handler) (st : State) : State :=
  let '(st', classesSet) := h st in
  if classesSet then autoSave st' else st'.

Definition run (hs : list handler) (st : State) : State :=
  fold_left (fun s h => dispatch h s) hs st.

(** ** The GPA of the specification, in exact arithmetic

    The specification describes the GPA as the quotient of two sums,
    "formatted to the shortest exact decimal representation (at most 3
    places)", by "a pure function from rational number to
    shortest-exact-decimal string". [spec_computeGPA] follows these words
    with rational numbers; it is defined where the specification says what
    the value is (grades of the table, finite credits). *)

Definition gradePointsExact : list (string * Q) :=
  [ ("A", 400 # 100); ("A-", 367 # 100); ("B+", 333 # 100);
    ("B", 300 # 100); ("B-", 267 # 100); ("C+", 233 # 100);
    ("C", 200 # 100); ("C-", 167 # 100); ("D", 100 # 100);
    ("F", 0 # 100) ]%Q.

(** The rational value of a finite number. *)
Definition value (x : number) : option Q :=
  match x with
  | S754_zero _ => Some 0%Q
  | S754_finite s m e =>
      Some (if 0 <=? e then inject_Z (cond_Zopp s (Zpos m) * 2 ^ e)
            else Qmake (cond_Zopp s (Zpos m)) (Z.to_pos (2 ^ (- e))))
  | _ => None
  end.

Definition exactTerm (cls : ClassEntry) : option (Q * Q) :=
  match grade cls, credits cls with
  | Some g, Some c =>
      match lookup g gradePointsExact, value c with
      | Some p, Some v => Some (Qmult p v, v)
      | _, _ => None
      end
  | _, _ => None
  end.

Fixpoint exactSums (cs : list ClassEntry) : option (Q * Q) :=
  match cs with
  | [] => Some (0%Q, 0%Q)
  | cls :: rest =>
      match exactTerm cls, exactSums rest with
      | Some (p, v), Some (tp, tc) => Some (Qplus p tp, Qplus v tc)
      | _, _ => None
      end
  end.

(** [q] has at most [d] decimal places. *)
Definition exactAt (q : Q) (d : nat) : bool :=
  (Qnum q * 10 ^ Z.of_nat d) mod Zpos (Qden q) =? 0.

(** [q] with [d] decimal places, rounded to the nearest. *)
Definition printAt (q : Q) (d : nat) : string :=
  let n := (2 * Z.abs (Qnum q) * 10 ^ Z.of_nat d + Zpos (Qden q))
           / (2 * Zpos (Qden q)) in
  (if Qnum q <? 0 then "-" else "") ++ fixed_point n d.

Definition shortestExactDecimal (q : Q) : string :=
  if exactAt q 0 then printAt q 0
  else if exactAt q 1 then printAt q 1
  else if exactAt q 2 then printAt q 2
  else printAt q 3.

Definition spec_computeGPA (cs : list ClassEntry) : option string :=
  match cs with
  | [] => Some "0"
  | _ =>
      match exactSums (filter counted cs) with
      | Some (tp, tc) =>
          if Qeq_bool tc 0 then Some "0"
          else Some (shortestExactDecimal (Qdiv tp tc))
      | None => None
      end
  end.

(** ** Vocabulary of the statements *)

(** The sum of a list of numbers as the loops of the component compute it
    (from [0], left to right), and the credits that enter the average. *)
Definition total (xs : list number) : number := fold_left add xs zero.

Definition countedCredits (cs : list ClassEntry) : list number :=
  map (fun cls => to_number (credits cls)) (filter counted cs).

(** The credits of an entry, [0] when the property is absent. *)
Definition creditsOrAbsent (cls : ClassEntry) : number :=
  match credits cls with
  | Some c => c
  | None => zero
  end.


(** A binary64 value other than [NaN]: what the credits selector of the form
    and the numbers of a JSON text denote. *)
Definition storable (c : number) : Prop :=
  valid_binary prec emax c = true /\ c <> NaN.

(** A finite number whose exponent is not below the least exponent of the
    format, as the exponent of every valid number is. *)
Definition above_emin (prec emax : Z) (x : spec_float) : Prop :=
  match x with
  | S754_finite _ _ e => emin prec emax <= e
  | _ => True
  end.

Definition is_zero (x : spec_float) : Prop :=
  match x with
  | S754_zero _ => True
  | _ => False
  end.

(** The grade is one of the ten letters of the table. *)
Definition enumerated (g : string) : bool :=
  existsb (String.eqb g) (map fst gradePoints).

(** An entry that enters the sums with a grade the table does not have. *)
Definition unlisted (cls : ClassEntry) : bool :=
  counted cls &&
  match grade cls with
  | Some g => negb (enumerated g)
  | None => false
  end.

Fixpoint contains (c : ascii) (s : string) : bool :=
  match s with
  | EmptyString => false
  | String c' rest => Ascii.eqb c' c || contains c rest
  end.

Definition isAbbreviation (t : string) : bool :=
  String.eqb t "SP" || String.eqb t "FA" || String.eqb t "SM" || String.eqb t "WN".

(** Some required field of the form is missing: [undefined] or empty. *)
Definition incomplete (st : State) : Prop :=
  name (currentClass st) = None \/ name (currentClass st) = Some "" \/
  grade (currentClass st) = None \/ grade (currentClass st) = Some "" \/
  credits (currentClass st) = None \/
  term st = "" \/ year st = "".

(** The roster that a submit passing the guard hands to [setClasses]. *)
Definition savedClasses (now : number) (st : State) : list ClassEntry :=
  let cur := currentClass st in
  let sem := encodeSemester (term st) (year st) in
  if isEditMode st && truthy_num (id cur)
  then map (fun cls => if same_id (id cls) (id cur)
                       then withSemester cur sem else cls)
           (classes st)
  else (classes st ++
        [ {| id := Some now; name := name cur; grade := grade cur;
             credits := credits cur; semester := Some sem |} ])%list.

(** ** Rosters and states of the examples *)

(** An entry [{ name, grade, credits }] with an integer number of credits. *)
Definition course (n g : string) (c : Z) : ClassEntry :=
  {| id := None; name := Some n; grade := Some g; credits := Some (of_Z c);
     semester := None |}.

Definition rosterCalcArt : list ClassEntry :=
  [ course "Calc I" "A" 4; course "Art" "B-" 2 ].

Definition rosterSeminar : list ClassEntry :=
  [ course "Seminar" "A" 3 ].

(** One credit of A- and four credits of C-: the average is
    (3.67 + 4 * 1.67) / 5 = 2.07. *)
Definition rosterTwoDecimals : list ClassEntry :=
  [ course "Physics" "A-" 1; course "Chemistry" "C-" 4 ].

(** An entry without a grade, an entry without credits and an ordinary one. *)
Definition rosterMixed : list ClassEntry :=
  [ {| id := Some (of_Z 7); name := Some "Thesis"; grade := None;
       credits := Some (of_Z 6); semester := None |};
    {| id := Some (of_Z 8); name := Some "Audit"; grade := Some "A";
       credits := None; semester := None |};
    course "Calc I" "A" 4 ].

(** A grade "P" next to an A. *)
Definition rosterPass : list ClassEntry :=
  [ course "Lab" "P" 3; course "Calc I" "A" 4 ].

(** A grade "P" on 3 credits next to an A on -3 credits. *)
Definition rosterCancelling : list ClassEntry :=
  [ course "Lab" "P" 3; course "Transfer" "A" (-3) ].

Definition timestamp : number := of_Z 1718000000000.
Definition later : number := of_Z 1718000000001.

(** The draft of a new class, and the events that fill the form with it. *)
Definition draftOf (n g : string) (c : Z) : ClassEntry :=
  {| id := None; name := Some n; grade := Some g; credits := Some (of_Z c);
     semester := Some "" |}.

Definition fillForm (n g : string) (c : Z) (t y : string) : list handler :=
  [ handleOpenAddModal; setCurrentClass (draftOf n g c); setTerm t; setYear y ].

Definition calcI : ClassEntry :=
  {| id := Some timestamp; name := Some "Calc I"; grade := Some "A";
     credits := Some (of_Z 4); semester := Some "FA 24" |}.

(** One class, Calc I, added at [timestamp]. *)
Definition stateOneClass : State :=
  run (fillForm "Calc I" "A" 4 "Fall" "24" ++ [handleSaveClass timestamp])%list
      initialState.

(** The form filled for a second class, before the submit. *)
Definition stateArtFilled : State :=
  run (fillForm "Art" "B-" 2 "Spring" "25") stateOneClass.

(** The form filled for a second class but for the year. *)
Definition stateArtNoYear : State :=
  run [ handleOpenAddModal; setCurrentClass (draftOf "Art" "B-" 2);
        setTerm "Fall" ] stateOneClass.

(** Calc I opened for edit and its term changed to Spring. *)
Definition stateCalcEdited : State :=
  run [ handleOpenEditModal calcI; setTerm "Spring" ] stateOneClass.

(** An entry whose id is the number 0, as a roster read back from storage
    may hold, and the state in which it has been opened for edit. *)
Definition entryZero : ClassEntry :=
  {| id := Some zero; name := Some "Biology"; grade := Some "B+";
     credits := Some (of_Z 3); semester := Some "FA 24" |}.

Definition stateZeroEdited : State :=
  dispatch (handleOpenEditModal entryZero)
    {| isModalOpen := false; isEditMode := false; classes := [entryZero];
       currentClass := emptyDraft; term := ""; year := "";
       storage := Some [entryZero]; alerts := [] |}.

Definition entryWithSemester (sem : string) : ClassEntry :=
  {| id := Some later; name := Some "Biology";
     grade := Some "B+"; credits := Some (of_Z 3); semester := Some sem |}.

(** The state after the form was opened for a new class, "Fall" and "24"
    were chosen and the dialog was cancelled. *)
Definition stateCancelled : State :=
  run [ handleOpenAddModal; setTerm "Fall"; setYear "24"; setIsModalOpen false ]
      stateOneClass.

(** An entry whose semester is one word. *)
Definition entryOneWord : ClassEntry :=
  {| id := Some (of_Z 1600000000000); name := Some "History";
     grade := Some "B"; credits := Some (of_Z 3); semester := Some "Spring" |}.

(** ** The rendered interface

    The controls that the component renders and the handler each one
    calls. *)

Definition getGradeColor (grade : string) : string :=
  if String.eqb grade "A" then "bg-green-100 text-green-800"
  else if String.eqb grade "A-" then "bg-green-200 text-green-800"
  else if String.eqb grade "B+" then "bg-yellow-100 text-yellow-800"
  else if String.eqb grade "B" then "bg-yellow-200 text-yellow-800"
  else if String.eqb grade "B-" then "bg-orange-100 text-orange-800"
  else if String.eqb grade "C+" then "bg-orange-200 text-orange-800"
  else if String.eqb grade "C" then "bg-orange-300 text-orange-900"
  else if String.eqb grade "C-" then "bg-red-100 text-red-800"
  else if String.eqb grade "D" then "bg-red-200 text-red-800"
  else if String.eqb grade "F" then "bg-red-300 text-red-900"
  else "bg-gray-100 text-gray-800".

(** The values of the [SelectItem]s of the grade, credits and term
    selectors (the years are [years]). *)
Definition gradeOptions : list string :=
  ["A"; "A-"; "B+"; "B"; "B-"; "C+"; "C"; "C-"; "D"; "F"].

Definition creditOptions : list string := ["1"; "2"; "3"; "4"; "5"; "6"].

Definition termOptions : list string := ["Fall"; "Spring"; "Summer"; "Winter"].

(** [Number.parseInt(s)] without a radix, on a string of ASCII characters:
    leading white space, a sign, [0x] for base 16, then the longest prefix of
    digits; [NaN] when there is no digit. *)
Definition isWhiteSpace (c : ascii) : bool :=
  let n := nat_of_ascii c in
  ((9 <=? n) && (n <=? 13))%nat || (n =? 32)%nat.

Fixpoint skipWhiteSpace (s : string) : string :=
  match s with
  | String c rest => if isWhiteSpace c then skipWhiteSpace rest else s
  | EmptyString => s
  end.

Definition digitValue (radix : Z) (c : ascii) : option Z :=
  let n := Z.of_nat (nat_of_ascii c) in
  let v := if (48 <=? n) && (n <=? 57) then n - 48
           else if (97 <=? n) && (n <=? 122) then n - 87
           else if (65 <=? n) && (n <=? 90) then n - 55
           else radix in
  if v <? radix then Some v else None.

Fixpoint digitPrefix (radix : Z) (s : string) (acc : option Z) : option Z :=
  match s with
  | String c rest =>
      match digitValue radix c with
      | Some v =>
          digitPrefix radix rest
            (Some (radix * match acc with Some a => a | None => 0 end + v))
      | None => acc
      end
  | EmptyString => acc
  end.

Definition parseInt (s : string) : number :=
  let s := skipWhiteSpace s in
  let '(negative, s) :=
    match s with
    | String "-" rest => (true, rest)
    | String "+" rest => (false, rest)
    | _ => (false, s)
    end in
  let '(radix, s) :=
    match s with
    | String "0" (String "x" rest) => (16, rest)
    | String "0" (String "X" rest) => (16, rest)
    | _ => (10, s)
    end in
  match digitPrefix radix s None with
  | Some z => if negative then SFopp (of_Z z) else of_Z z
  | None => NaN
  end.

(** [{ ...currentClass, name: v }] and the like. *)
Definition withName (cur : ClassEntry) (v : string) : ClassEntry :=
  {| id := id cur; name := Some v; grade := grade cur;
     credits := credits cur; semester := semester cur |}.

Definition withGrade (cur : ClassEntry) (v : string) : ClassEntry :=
  {| id := id cur; name := name cur; grade := Some v;
     credits := credits cur; semester := semester cur |}.

Definition withCredits (cur : ClassEntry) (v : number) : ClassEntry :=
  {| id := id cur; name := name cur; grade := grade cur;
     credits := Some v; semester := semester cur |}.

(** What the user can do: the two footer buttons, a row and its delete
    button, the five form controls, closing the dialog (the Cancel button,
    or the dialog's own [onOpenChange]) and the submit button, with the
    value that [Date.now()] returns in the handler. *)
Inductive action : Type :=
| ClickAdd
| ClickSave
| ClickRow (cls : ClassEntry)
| ClickDelete (cls : ClassEntry)
| TypeName (value : string)
| ChooseGrade (value : string)
| ChooseCredits (value : string)
| ChooseTerm (value : string)
| ChooseYear (value : string)
| ClickCancel
| OpenChange (open : bool)
| ClickSubmit (now : number).

Definition perform (a : action) : handler := fun st =>
  match a with
  | ClickAdd => handleOpenAddModal st
  | ClickSave => handleSave st
  | ClickRow cls => handleOpenEditModal cls st
  | ClickDelete cls => handleDeleteClass (id cls) st
  | TypeName v => setCurrentClass (withName (currentClass st) v) st
  | ChooseGrade v => setCurrentClass (withGrade (currentClass st) v) st
  | ChooseCredits v =>
      setCurrentClass (withCredits (currentClass st) (parseInt v)) st
  | ChooseTerm v => setTerm v st
  | ChooseYear v => setYear v st
  | ClickCancel => setIsModalOpen false st
  | OpenChange b => setIsModalOpen b st
  | ClickSubmit now => handleSaveClass now st
  end.

(** What the rendered controls offer in a state: the rows are those of the
    roster, a selector gives one of its items, the submit button is disabled
    unless [isFormValid], and [Date.now()] is a positive number. *)
Definition offered (st : State) (a : action) : Prop :=
  match a with
  | ClickRow cls | ClickDelete cls => In cls (classes st)
  | ChooseGrade v => In v gradeOptions
  | ChooseCredits v => In v creditOptions
  | ChooseTerm v => In v termOptions
  | ChooseYear v => In v years
  | ClickSubmit now => isFormValid st = true /\ lt zero now = true
  | _ => True
  end.

(** The states of a session that starts with nothing stored (the loading
    effect then sets nothing, and the first run of the saving effect writes
    nothing). *)
Inductive reachable : State -> Prop :=
| reachable_initial : reachable initialState
| reachable_step (st : State) (a : action) :
    reachable st -> offered st a -> reachable (dispatch (perform a) st).

Definition play (acts : list action) (st : State) : State :=
  fold_left (fun s a => dispatch (perform a) s) acts st.

(** ** Vocabulary of the further statements *)

(** An entry as the form builds it. *)
Definition builtByForm (cls : ClassEntry) : Prop :=
  truthy_str (name cls) = true /\
  (exists g, In g gradeOptions /\ grade cls = Some g) /\
  (exists v, In v creditOptions /\ credits cls = Some (parseInt v)) /\
  (exists t y, In t termOptions /\ In y years /\
               semester cls = Some (getTermAbbreviation t ++ " " ++ y)) /\
  (exists i, id cls = Some i /\ lt zero i = true).

(** Each field of the draft is as [handleOpenAddModal] leaves it, or a value
    of its control, and its id is absent or positive. *)
Definition draftFromControls (st : State) : Prop :=
  (grade (currentClass st) = Some "" \/
   exists g, In g gradeOptions /\ grade (currentClass st) = Some g) /\
  (credits (currentClass st) = None \/
   exists v, In v creditOptions /\ credits (currentClass st) = Some (parseInt v)) /\
  (term st = "" \/ In (term st) termOptions) /\
  (year st = "" \/ In (year st) years) /\
  (id (currentClass st) = None \/
   exists i, id (currentClass st) = Some i /\ lt zero i = true).

(** No two entries of the roster have the same id. *)
Definition distinctIds (cs : list ClassEntry) : Prop :=
  ForallOrdPairs (fun a b => same_id (id a) (id b) = false) cs.

(** The value of [Date.now()] at a submit is later than every id in the
    roster. *)
Definition clockAhead (st : State) (a : action) : Prop :=
  match a with
  | ClickSubmit now =>
      Forall (fun cls => exists i, id cls = Some i /\ lt i now = true) (classes st)
  | _ => True
  end.

(** The stored item is the roster, whenever the roster is not empty. *)
Definition persisted (st : State) : Prop :=
  classes st <> [] -> storage st = Some (classes st).

Fixpoint count (c : ascii) (s : string) : nat :=
  match s with
  | EmptyString => O
  | String c' rest => (if Ascii.eqb c' c then 1 else 0) + count c rest
  end.

Definition isFullTermName (t : string) : bool :=
  String.eqb t "Spring" || String.eqb t "Fall" || String.eqb t "Summer"
  || String.eqb t "Winter".

Definition isDigit (c : ascii) : bool :=
  let n := nat_of_ascii c in ((48 <=? n) && (n <=? 57))%nat.

(** The two semester selectors give one of their items; every other event
    is taken as it comes, a click on a row with whatever entry the roster
    holds. *)
Definition fromSelectors (a : action) : Prop :=
  match a with
  | ChooseTerm v => In v termOptions
  | ChooseYear v => In v years
  | _ => True
  end.

(** [term] has no space and is not an abbreviation, and [year] has no
    space. *)
Definition plainSemester (st : State) : Prop :=
  contains " " (term st) = false /\ isAbbreviation (term st) = false /\
  contains " " (year st) = false.

(** The form filled with Calc I, Fall, 24, before the submit. *)
Definition calcIFilled : list action :=
  [ ClickAdd; TypeName "Calc I"; ChooseGrade "A"; ChooseCredits "4";
    ChooseTerm "Fall"; ChooseYear "24" ].

(** A session: Calc I added at [timestamp], then Art at [later]. *)
Definition addCalcI : list action :=
  [ ClickAdd; TypeName "Calc I"; ChooseGrade "A"; ChooseCredits "4";
    ChooseTerm "Fall"; ChooseYear "24"; ClickSubmit timestamp ].

Definition addArt : list action :=
  [ ClickAdd; TypeName "Art"; ChooseGrade "B-"; ChooseCredits "2";
    ChooseTerm "Spring"; ChooseYear "25"; ClickSubmit later ].

Definition sessionOne : State := play addCalcI initialState.

Definition sessionTwo : State := play addArt sessionOne.

Definition art : ClassEntry :=
  {| id := Some later; name := Some "Art"; grade := Some "B-";
     credits := Some (of_Z 2); semester := Some "SP 25" |}.

(** An entry saved before the semester was asked for. *)
Definition entryNoSemester : ClassEntry :=
  {| id := Some (of_Z 1500000000000); name := Some "Music"; grade := Some "C+";
     credits := Some (of_Z 2); semester := None |}.

(** * Properties *)

(** Closed statements about concrete rosters and states are settled by
    running the definitions. *)
Ltac evaluate :=
  vm_compute; repeat split; try reflexivity; try discriminate.

(** ** Numbers *)

(** The literals of the grade-point table, as mantissa and exponent. *)
Lemma gradePoints_bits :
  map snd gradePoints =
  [ S754_finite false 4503599627370496 (-50);
    S754_finite false 8264105316224860 (-51);
    S754_finite false 7498493379571876 (-51);
    S754_finite false 6755399441055744 (-51);
    S754_finite false 6012305502539612 (-51);
    S754_finite false 5246693565886628 (-51);
    S754_finite false 4503599627370496 (-51);
    S754_finite false 7521011377708728 (-52);
    S754_finite false 4503599627370496 (-52);
    S754_zero false ].
Proof. evaluate. Qed.

Section NaN.

Variable x : number.

Lemma add_NaN_l : add NaN x = NaN.
Proof. reflexivity. Qed.

Lemma add_NaN_r : add x NaN = NaN.
Proof. destruct x; reflexivity. Qed.

Lemma mul_NaN_l : mul NaN x = NaN.
Proof. reflexivity. Qed.

Lemma div_NaN_l : div NaN x = NaN.
Proof. reflexivity. Qed.

End NaN.

Lemma formatGPA_NaN : formatGPA NaN = "NaN".
Proof. reflexivity. Qed.

Lemma lt_strict_eq (x y : number) : lt x y = true -> strict_eq x y = false.
Proof.
  unfold lt, SFltb, strict_eq, SFeqb.
  destruct (SFcompare x y) as [[| |]|]; congruence.
Qed.

(** ** Rounding never produces a negative zero from a sum

    In [x + y] the exact sum of two finite numbers is rounded by
    [binary_normalize]; when the exponents are not below [emin] nothing is
    shifted out entirely, so the result is a zero only for an exact zero,
    which is the positive one. *)

Section Rounding.

Variables prec emax : Z.
Hypothesis prec_pos : 0 < prec.

Lemma digits2_pos_size (p : positive) : digits2_pos p = Pos.size p.
Proof. induction p; cbn; congruence. Qed.

Lemma digits2_pos_lower (p : positive) :
  2 ^ (Zpos (digits2_pos p) - 1) <= Zpos p.
Proof.
  rewrite digits2_pos_size.
  pose proof (Pos.size_le p) as H.
  assert (H' : 2 ^ Zpos (Pos.size p) <= 2 * Zpos p).
  { change (2 * Zpos p) with (Zpos p~0). rewrite <- Pos2Z.inj_pow. now apply Pos2Z.pos_le_pos. }
  replace (Zpos (Pos.size p)) with (Zpos (Pos.size p) - 1 + 1) in H' by lia.
  rewrite Z.pow_add_r in H' by lia. lia.
Qed.

Lemma shr_1_m (r : shr_record) : 0 <= shr_m r -> shr_m (shr_1 r) = shr_m r / 2.
Proof.
  destruct r as [m b s]. cbn [shr_m shr_1]. intros Hm.
  destruct m as [|[p|p|]|p]; cbn [shr_m]; try reflexivity; try lia.
  - rewrite Pos2Z.inj_xI. apply Z.div_unique with (r := 1); lia.
  - rewrite Pos2Z.inj_xO. apply Z.div_unique with (r := 0); lia.
Qed.

Lemma pow2_xI (k : positive) : 2 ^ Zpos k~1 = 2 * (2 ^ Zpos k * 2 ^ Zpos k).
Proof.
  rewrite Pos2Z.inj_xI. replace (2 * Zpos k + 1) with (Zpos k + Zpos k + 1) by lia.
  rewrite !Z.pow_add_r by lia. change (2 ^ 1) with 2. lia.
Qed.

Lemma pow2_xO (k : positive) : 2 ^ Zpos k~0 = 2 ^ Zpos k * 2 ^ Zpos k.
Proof.
  replace (Zpos k~0) with (Zpos k + Zpos k) by lia.
  now rewrite Z.pow_add_r by lia.
Qed.

Lemma iter_shr_1_m (k : positive) (r : shr_record) :
  0 <= shr_m r -> shr_m (iter_pos shr_1 k r) = shr_m r / 2 ^ Zpos k.
Proof.
  assert (Hp : forall j, 0 < 2 ^ Zpos j) by (intros j; apply Z.pow_pos_nonneg; lia).
  revert r. induction k as [k IH|k IH|]; intros r Hr; cbn [iter_pos].
  - assert (H1 : 0 <= shr_m (shr_1 r)) by (rewrite shr_1_m by lia; apply Z.div_pos; lia).
    assert (H2 : 0 <= shr_m (iter_pos shr_1 k (shr_1 r))).
    { rewrite IH by lia. apply Z.div_pos; [lia|apply Hp]. }
    rewrite IH, IH, shr_1_m by lia. pose proof (Hp k).
    rewrite !Z.div_div by lia. now rewrite pow2_xI.
  - assert (H2 : 0 <= shr_m (iter_pos shr_1 k r)).
    { rewrite IH by lia. apply Z.div_pos; [lia|apply Hp]. }
    rewrite IH, IH by lia. pose proof (Hp k).
    rewrite !Z.div_div by lia. now rewrite pow2_xO.
  - rewrite shr_1_m by lia. reflexivity.
Qed.

Lemma shr_record_of_loc_m (m : Z) (l : location) : shr_m (shr_record_of_loc m l) = m.
Proof. destruct l as [|[| |]]; reflexivity. Qed.

(** Shifting a positive mantissa to its format exponent keeps it positive
    when the exponent is not below [emin]. *)
Lemma shr_fexp_pos (m : positive) (e : Z) (l : location) :
  emin prec emax <= e ->
  0 < shr_m (fst (shr_fexp prec emax (Zpos m) e l)) /\
  emin prec emax <= snd (shr_fexp prec emax (Zpos m) e l).
Proof.
  intros He. unfold shr_fexp, shr. cbn [Zdigits2].
  set (n := fexp prec emax (Zpos (digits2_pos m) + e) - e).
  destruct n as [|k|k] eqn:En; cbn [fst snd]; rewrite ?shr_record_of_loc_m;
    try (split; lia).
  assert (Hk : Zpos k = Zpos (digits2_pos m) - prec).
  { unfold fexp in n. lia. }
  rewrite iter_shr_1_m by (rewrite shr_record_of_loc_m; lia).
  rewrite shr_record_of_loc_m. split; [|lia].
  apply Z.div_str_pos. split; [apply Z.pow_pos_nonneg; lia|].
  pose proof (digits2_pos_lower m) as Hd.
  apply Z.le_trans with (2 ^ (Zpos (digits2_pos m) - 1)); [|exact Hd].
  apply Z.pow_le_mono_r; lia.
Qed.


Lemma round_nearest_even_pos (m : Z) (l : location) :
  0 < m -> 0 < round_nearest_even m l.
Proof.
  intros Hm. unfold round_nearest_even.
  destruct l as [|[| |]]; try lia. destruct (Z.even m); lia.
Qed.

Lemma valid_above_emin (x : spec_float) :
  valid_binary prec emax x = true -> above_emin prec emax x.
Proof.
  destruct x as [| | |s m e]; cbn [valid_binary above_emin]; trivial.
  unfold bounded, canonical_mantissa, fexp. intros H.
  apply andb_true_iff in H. destruct H as [H _]. apply Z.eqb_eq in H. lia.
Qed.

Lemma binary_round_aux_finite (s : bool) (m : positive) (e : Z) (l : location) :
  emin prec emax <= e ->
  ~ is_zero (binary_round_aux prec emax s (Zpos m) e l) /\
  above_emin prec emax (binary_round_aux prec emax s (Zpos m) e l).
Proof.
  intros He. unfold binary_round_aux.
  destruct (shr_fexp_pos m e l He) as [Hm1 He1].
  destruct (shr_fexp prec emax (Zpos m) e l) as [mrs1 e1]. cbn [fst snd] in Hm1, He1.
  pose proof (round_nearest_even_pos (shr_m mrs1) (loc_of_shr_record mrs1) Hm1) as Hr.
  destruct (round_nearest_even (shr_m mrs1) (loc_of_shr_record mrs1)) as [|m2|m2];
    try lia.
  destruct (shr_fexp_pos m2 e1 loc_Exact He1) as [Hm2 He2].
  destruct (shr_fexp prec emax (Zpos m2) e1 loc_Exact) as [mrs2 e2].
  cbn [fst snd] in Hm2, He2.
  destruct (shr_m mrs2) as [|m3|m3]; try lia.
  destruct (e2 <=? emax - prec); cbn [is_zero above_emin]; tauto.
Qed.

Lemma binary_round_finite (s : bool) (m : positive) (e : Z) :
  emin prec emax <= e ->
  ~ is_zero (binary_round prec emax s m e) /\
  above_emin prec emax (binary_round prec emax s m e).
Proof.
  intros He. unfold binary_round, shl_align.
  destruct (fexp prec emax (Zpos (digits2_pos m) + e) - e) eqn:Ef;
    try (apply binary_round_aux_finite; exact He).
  apply binary_round_aux_finite. unfold fexp. lia.
Qed.

Lemma binary_normalize_finite (z e : Z) :
  emin prec emax <= e ->
  binary_normalize prec emax z e false <> S754_zero true /\
  above_emin prec emax (binary_normalize prec emax z e false).
Proof.
  intros He. destruct z as [|p|p]; cbn [binary_normalize].
  - split; [discriminate|exact I].
  - destruct (binary_round_finite false p e He) as [Hz Ha]. split; [|exact Ha].
    intros Heq. rewrite Heq in Hz. now apply Hz.
  - destruct (binary_round_finite true p e He) as [Hz Ha]. split; [|exact Ha].
    intros Heq. rewrite Heq in Hz. now apply Hz.
Qed.

(** A sum is the negative zero only when both terms are. *)
Lemma SFadd_negative_zero (x y : spec_float) :
  above_emin prec emax x -> above_emin prec emax y ->
  SFadd prec emax x y = S754_zero true -> x = S754_zero true.
Proof.
  intros Hx Hy.
  destruct x as [[|]|[|]| |sx mx ex], y as [[|]|[|]| |sy my ey]; cbn [SFadd];
    try discriminate; try (intros; reflexivity).
  cbn [above_emin] in Hx, Hy. intros H.
  apply binary_normalize_finite in H; [destruct H|lia].
Qed.

Lemma SFadd_above_emin (x y : spec_float) :
  above_emin prec emax x -> above_emin prec emax y ->
  above_emin prec emax (SFadd prec emax x y).
Proof.
  intros Hx Hy.
  destruct x as [[|]|[|]| |sx mx ex], y as [[|]|[|]| |sy my ey]; cbn [SFadd above_emin];
    trivial.
  cbn [above_emin] in Hx, Hy. apply binary_normalize_finite. lia.
Qed.

End Rounding.

(** ** The loop of [calculateGPA] *)

Section Loop.

Lemma accumulate_counted (acc : number * number) (cls : ClassEntry) :
  accumulate acc cls =
  if counted cls
  then (add (fst acc)
            (mul (to_number (lookup (match grade cls with
                                     | Some g => g
                                     | None => ""
                                     end) gradePoints))
                 (to_number (credits cls))),
        add (snd acc) (to_number (credits cls)))
  else acc.
Proof.
  destruct acc as [tp tc]. unfold accumulate, counted, truthy_str, truthy_num.
  destruct (grade cls) as [g|], (credits cls) as [c|]; cbn [fst snd to_number];
    try reflexivity.
  destruct (truthy_string g); reflexivity.
Qed.

(** Entries that fail the test do not take part in the sums. *)
Lemma fold_accumulate_filter (cs : list ClassEntry) (acc : number * number) :
  fold_left accumulate cs acc = fold_left accumulate (filter counted cs) acc.
Proof.
  revert acc. induction cs as [|cls cs IH]; intros acc; [reflexivity|].
  cbn [fold_left filter]. rewrite IH.
  destruct (counted cls) eqn:E.
  - reflexivity.
  - rewrite accumulate_counted, E. reflexivity.
Qed.

(** The second component is the sum of the credits of the counted entries. *)
Lemma fold_accumulate_credits (cs : list ClassEntry) (tp tc : number) :
  snd (fold_left accumulate cs (tp, tc)) = fold_left add (countedCredits cs) tc.
Proof.
  revert tp tc. induction cs as [|cls cs IH]; intros tp tc; [reflexivity|].
  cbn [fold_left]. rewrite accumulate_counted. unfold countedCredits.
  cbn [filter fst snd]. destruct (counted cls).
  - cbn [map fold_left]. apply IH.
  - apply IH.
Qed.

(** Once [totalPoints] is [NaN] it stays [NaN]. *)
Lemma fold_accumulate_NaN (cs : list ClassEntry) (tc : number) :
  fst (fold_left accumulate cs (NaN, tc)) = NaN.
Proof.
  revert tc. induction cs as [|cls cs IH]; intros tc; [reflexivity|].
  cbn [fold_left]. rewrite accumulate_counted. cbn [fst snd].
  destruct (counted cls); [rewrite add_NaN_l|]; apply IH.
Qed.

Lemma lookup_absent {A : Type} (key : string) (table : list (string * A)) :
  existsb (String.eqb key) (map fst table) = false -> lookup key table = None.
Proof.
  induction table as [|[k v] table IH]; [reflexivity|].
  cbn [map fst existsb lookup]. destruct (String.eqb key k); [discriminate|].
  exact IH.
Qed.

(** An entry with a grade outside the table turns [totalPoints] into [NaN]. *)
Lemma fold_accumulate_unlisted (cs : list ClassEntry) (cls : ClassEntry)
    (tp tc : number) :
  In cls cs -> unlisted cls = true ->
  fst (fold_left accumulate cs (tp, tc)) = NaN.
Proof.
  revert tp tc. induction cs as [|c0 cs IH]; intros tp tc Hin Hun; [destruct Hin|].
  cbn [fold_left]. destruct Hin as [->|Hin].
  - rewrite accumulate_counted. unfold unlisted in Hun.
    apply andb_true_iff in Hun. destruct Hun as [Hc Hg]. rewrite Hc.
    destruct (grade cls) as [g|]; [|discriminate].
    apply negb_true_iff in Hg. unfold enumerated in Hg.
    rewrite (lookup_absent g gradePoints Hg). cbn [to_number fst snd].
    rewrite mul_NaN_l, add_NaN_r. apply fold_accumulate_NaN.
  - destruct (accumulate (tp, tc) c0) as [tp' tc']. now apply IH.
Qed.

End Loop.

(** ** GPA *)

Lemma calculateGPA_empty : calculateGPA [] = "0".
Proof. reflexivity. Qed.

(** On a roster that is not empty, the result is ["0"] when the credits of
    the counted entries sum to zero, and the formatted quotient of the two
    sums over the counted entries otherwise. *)
Lemma calculateGPA_counted (cs : list ClassEntry) :
  cs <> [] ->
  calculateGPA cs =
  let sums := fold_left accumulate (filter counted cs) (zero, zero) in
  if strict_eq (snd sums) zero then "0"
  else formatGPA (div (fst sums) (snd sums)).
Proof.
  intros Hne. destruct cs as [|cls cs]; [congruence|].
  unfold calculateGPA. rewrite fold_accumulate_filter.
  destruct (fold_left accumulate (filter counted (cls :: cs)) (zero, zero)).
  reflexivity.
Qed.

Lemma calculateGPA_nothing_counted (cs : list ClassEntry) :
  filter counted cs = [] -> calculateGPA cs = "0".
Proof.
  intros Hnone. destruct cs as [|cls cs]; [reflexivity|].
  rewrite calculateGPA_counted by discriminate. rewrite Hnone. reflexivity.
Qed.

(** A single class with A- on 5 credits: 3.67 * 5 / 5 is rounded to the
    number after 3.67, and three decimals are printed. *)
Lemma calculateGPA_single_A_minus :
  calculateGPA [ course "Physics" "A-" 5 ] = "3.670" /\
  spec_computeGPA [ course "Physics" "A-" 5 ] = Some "3.67".
Proof. evaluate. Qed.

(** C1. [calculateGPA] does not always print the fewest decimal places that
    reproduce the value. On [rosterTwoDecimals] the quotient of the sums is
    the number 2.07, which two decimal places reproduce exactly (the
    specification prints "2.07"), but [gpa * 100] is rounded to a number
    just below 207, the third test fails, and the result is "2.070". *)
Theorem calculateGPA_superfluous_decimal :
  calculateGPA rosterTwoDecimals = "2.070" /\
  spec_computeGPA rosterTwoDecimals = Some "2.07" /\
  (let sums := fold_left accumulate rosterTwoDecimals (zero, zero) in
   div (fst sums) (snd sums) = decimal 207 2 /\
   is_whole (mul (decimal 207 2) (of_Z 100)) = false).
Proof. evaluate. Qed.

(** C2, as stated: the first roster does not give "3.223". *)
Lemma scenario_gpa_counterexample : calculateGPA rosterCalcArt <> "3.223".
Proof. evaluate. Qed.

(** C2, amended. (4.00 * 4 + 2.67 * 2) / 6 is 21.34 / 6 = 3.5566..: on the
    roster of Calc I (A, 4 credits) and Art (B-, 2 credits) [calculateGPA]
    returns "3.557" and [getTotalCredits] returns 6 (shown as "6"); on the
    roster of the Seminar alone (A, 3 credits) [calculateGPA] returns "4". *)
Theorem scenario_values :
  calculateGPA rosterCalcArt = "3.557" /\
  getTotalCredits rosterCalcArt = of_Z 6 /\
  toString (getTotalCredits rosterCalcArt) = "6" /\
  calculateGPA rosterSeminar = "4".
Proof. evaluate. Qed.

(** ** Total credits *)

Section TotalCredits.

Lemma binary64_prec_pos : 0 < prec.
Proof. reflexivity. Qed.

Lemma getTotalCredits_map (cs : list ClassEntry) :
  getTotalCredits cs = total (map creditsOrZero cs).
Proof.
  unfold getTotalCredits, total. generalize zero.
  induction cs as [|cls cs IH]; intros acc; [reflexivity|].
  cbn [fold_left map]. apply IH.
Qed.

Lemma creditsOrZero_credits (a b : ClassEntry) :
  credits a = credits b -> creditsOrZero a = creditsOrZero b.
Proof. unfold creditsOrZero. now intros ->. Qed.

(** Adding [cls.credits || 0] or the credits themselves (0 when absent) to a
    running sum that is not the negative zero gives the same number. *)
Lemma add_creditsOrZero (acc : number) (cls : ClassEntry) :
  acc <> S754_zero true ->
  (forall c, credits cls = Some c -> storable c) ->
  add acc (creditsOrZero cls) = add acc (creditsOrAbsent cls) /\
  above_emin prec emax (creditsOrAbsent cls).
Proof.
  intros Hacc Hst. unfold creditsOrZero, creditsOrAbsent.
  destruct (credits cls) as [c|]; [|split; [reflexivity|exact I]].
  destruct (Hst c eq_refl) as [Hv Hnan].
  split; [|now apply valid_above_emin].
  destruct c as [[|]| | |]; cbn [truthy]; try reflexivity.
  - destruct acc as [[|]| | |]; try reflexivity. now elim Hacc.
  - now elim Hnan.
Qed.

Lemma fold_creditsOrZero (cs : list ClassEntry) (acc : number) :
  above_emin prec emax acc -> acc <> S754_zero true ->
  Forall (fun cls => forall c, credits cls = Some c -> storable c) cs ->
  fold_left (fun sum cls => add sum (creditsOrZero cls)) cs acc
  = fold_left add (map creditsOrAbsent cs) acc.
Proof.
  intros Ha Hz Hall. revert acc Ha Hz.
  induction Hall as [|cls cs Hc _ IH]; intros acc Ha Hz; [reflexivity|].
  cbn [fold_left map].
  destruct (add_creditsOrZero acc cls Hz Hc) as [Heq Hb]. rewrite Heq.
  apply IH.
  - now apply SFadd_above_emin.
  - intros H. apply Hz.
    now apply (SFadd_negative_zero prec emax binary64_prec_pos acc (creditsOrAbsent cls)).
Qed.

End TotalCredits.

(** C3. [getTotalCredits] is the sum, over every entry of the roster, of
    its credits, taken as 0 when the property is absent; nothing but the
    credits of the entries matters (two rosters with the same credits have
    the same total, whatever the grades), so the entries that the GPA leaves
    out are added too. The credits that are present are binary64 values
    other than [NaN]. *)
Theorem getTotalCredits_all_entries (cs : list ClassEntry) :
  Forall (fun cls => forall c, credits cls = Some c -> storable c) cs ->
  getTotalCredits cs = total (map creditsOrAbsent cs) /\
  (forall cs', map credits cs' = map credits cs ->
               getTotalCredits cs' = getTotalCredits cs).
Proof.
  intros Hst. split.
  - unfold getTotalCredits, total.
    apply fold_creditsOrZero; [exact I|discriminate|exact Hst].
  - intros cs' Heq. rewrite !getTotalCredits_map. f_equal. clear Hst.
    revert cs Heq. induction cs' as [|a cs' IH]; intros [|b cs] Heq;
      try discriminate; [reflexivity|].
    cbn [map] in *. injection Heq as Hab Heq.
    rewrite (creditsOrZero_credits a b Hab). f_equal. now apply IH.
Qed.

Lemma getTotalCredits_all_entries_witness :
  Forall (fun cls => forall c, credits cls = Some c -> storable c) rosterMixed /\
  getTotalCredits rosterMixed = total (map creditsOrAbsent rosterMixed) /\
  (forall cs', map credits cs' = map credits rosterMixed ->
               getTotalCredits cs' = getTotalCredits rosterMixed).
Proof.
  assert (H : Forall (fun cls => forall c, credits cls = Some c -> storable c)
                     rosterMixed).
  { apply Forall_forall. intros x [<-|[<-|[<-|[]]]] c Hc; cbn in Hc;
      inversion Hc; subst; split; vm_compute; try reflexivity; discriminate. }
  split; [exact H|]. exact (getTotalCredits_all_entries rosterMixed H).
Defined.

(** The total of [rosterMixed] counts the 6 credits of the entry without a
    grade, which the GPA leaves out. *)
Lemma getTotalCredits_rosterMixed :
  getTotalCredits rosterMixed = of_Z 10 /\
  map (fun cls => to_number (credits cls)) (filter counted rosterMixed) = [of_Z 4].
Proof. evaluate. Qed.

(** ** A grade outside the table *)

(** C10, as stated: with a grade "P" on 3 credits and an A on -3 credits the
    counted credits sum to 0, and the result is "0". *)
Lemma unlisted_grade_counterexample :
  In (course "Lab" "P" 3) rosterCancelling /\
  unlisted (course "Lab" "P" 3) = true /\
  calculateGPA rosterCancelling = "0" /\
  calculateGPA rosterCancelling <> "NaN".
Proof.
  split; [left; reflexivity|]. evaluate.
Qed.

(** C10, amended. When some entry enters the sums with a grade that is not
    in the table, [calculateGPA] returns "NaN", unless the credits of the
    counted entries sum to zero (negative credits that cancel), where the
    earlier test returns "0". *)
Theorem calculateGPA_unlisted_grade (cs : list ClassEntry) (cls : ClassEntry) :
  In cls cs -> unlisted cls = true ->
  calculateGPA cs =
  if strict_eq (total (countedCredits cs)) zero then "0" else "NaN".
Proof.
  intros Hin Hun.
  pose proof (fold_accumulate_unlisted cs cls zero zero Hin Hun) as Hp.
  pose proof (fold_accumulate_credits cs zero zero) as Hc.
  destruct cs as [|c0 cs]; [destruct Hin|].
  unfold calculateGPA.
  destruct (fold_left accumulate (c0 :: cs) (zero, zero)) as [tp tc].
  cbn [fst snd] in Hp, Hc. subst tp. rewrite Hc.
  fold (total (countedCredits (c0 :: cs))).
  destruct (strict_eq _ zero); [reflexivity|].
  rewrite div_NaN_l. apply formatGPA_NaN.
Qed.

Lemma calculateGPA_unlisted_grade_witness :
  In (course "Lab" "P" 3) rosterPass /\
  unlisted (course "Lab" "P" 3) = true /\
  calculateGPA rosterPass = "NaN".
Proof.
  assert (Hin : In (course "Lab" "P" 3) rosterPass) by (left; reflexivity).
  assert (Hun : unlisted (course "Lab" "P" 3) = true) by reflexivity.
  split; [exact Hin|]. split; [exact Hun|].
  rewrite (calculateGPA_unlisted_grade rosterPass _ Hin Hun).
  vm_compute. reflexivity.
Defined.

(** ** The semester string *)

Section Split.

Variable sep : ascii.

Lemma split_whole (s : string) :
  contains sep s = false -> split sep s = [s].
Proof.
  induction s as [|c s IH]; [reflexivity|].
  cbn [contains split]. intros H. apply orb_false_iff in H. destruct H as [Hc Hs].
  rewrite Hc, (IH Hs). reflexivity.
Qed.

Lemma split_first (a b : string) :
  contains sep a = false ->
  split sep (a ++ String sep b) = a :: split sep b.
Proof.
  induction a as [|c a IH]; cbn [contains split append].
  - intros _. now rewrite Ascii.eqb_refl.
  - intros H. apply orb_false_iff in H. destruct H as [Hc Ha].
    rewrite Hc, (IH Ha). reflexivity.
Qed.

End Split.

Lemma years_plain (y : string) :
  In y years -> truthy_string y = true /\ contains " " y = false.
Proof.
  intros Hin.
  assert (Hall : forallb (fun y => truthy_string y && negb (contains " " y)) years
                 = true) by (vm_compute; reflexivity).
  rewrite forallb_forall in Hall. specialize (Hall y Hin).
  apply andb_true_iff in Hall. destruct Hall as [H1 H2].
  apply negb_true_iff in H2. now split.
Qed.

Lemma getTermAbbreviation_plain (t : string) :
  truthy_string t = true -> contains " " t = false ->
  truthy_string (getTermAbbreviation t) = true /\
  contains " " (getTermAbbreviation t) = false.
Proof.
  intros Ht Hs. unfold getTermAbbreviation.
  repeat match goal with
         | |- context [if ?b then _ else _] => destruct b; [now split|]
         end.
  now split.
Qed.

Lemma getFullTermName_getTermAbbreviation (t : string) :
  isAbbreviation t = false -> getFullTermName (getTermAbbreviation t) = t.
Proof.
  unfold isAbbreviation, getTermAbbreviation. intros H.
  repeat (apply orb_false_iff in H; destruct H as [H ?]).
  repeat match goal with
         | |- context [String.eqb t ?k] =>
             destruct (String.eqb_spec t k) as [->|_]; [reflexivity|]
         end.
  unfold getFullTermName.
  repeat match goal with
         | E : String.eqb t _ = false |- _ => rewrite E; clear E
         end.
  reflexivity.
Qed.

(** The four terms of the selector and their abbreviations. *)
Lemma selector_terms :
  map getTermAbbreviation ["Fall"; "Spring"; "Summer"; "Winter"]
  = ["FA"; "SP"; "SM"; "WN"] /\
  map getFullTermName ["FA"; "SP"; "SM"; "WN"]
  = ["Fall"; "Spring"; "Summer"; "Winter"] /\
  forallb (fun t => truthy_string t && negb (contains " " t)
                    && negb (isAbbreviation t))
          ["Fall"; "Spring"; "Summer"; "Winter"] = true.
Proof. evaluate. Qed.

Lemma truthy_string_append (a b : string) :
  truthy_string a = true -> truthy_string (a ++ b) = true.
Proof. destruct a; [discriminate|reflexivity]. Qed.

(** What [handleOpenEditModal] leaves in the state. *)
Lemma handleOpenEditModal_state (cls : ClassEntry) (st : State) :
  let st' := dispatch (handleOpenEditModal cls) st in
  isModalOpen st' = true /\ isEditMode st' = true /\ currentClass st' = cls /\
  classes st' = classes st /\ storage st' = storage st /\
  (term st', year st') = parseSemester cls st.
Proof.
  unfold dispatch, handleOpenEditModal. destruct (parseSemester cls st).
  cbn. repeat split.
Qed.

(** What [handleOpenEditModal] does with the semester: decoded when it
    splits in two, emptied when absent or empty, and otherwise the values
    that [term] and [year] had are kept. *)
Lemma parseSemester_cases (cls : ClassEntry) (st : State) :
  match semester cls with
  | None | Some EmptyString => parseSemester cls st = ("", "")
  | Some s =>
      match split " " s with
      | [abbr; yy] => parseSemester cls st = (getFullTermName abbr, yy)
      | _ => parseSemester cls st = (term st, year st)
      end
  end.
Proof.
  unfold parseSemester. destruct (semester cls) as [[|c s]|]; try reflexivity.
  cbn [truthy_str truthy_string].
  destruct (split " " (String c s)) as [|a [|b [|d l]]]; reflexivity.
Qed.

(** For every term that is not empty, has no space and is not itself one of
    the abbreviations SP, FA, SM, WN, and every year of the selector, opening
    for edit an entry whose semester is the encoding of the term and the year
    sets [term] and [year] to that term and that year. *)
Lemma semester_round_trip_of_selectors (t y : string) (cls : ClassEntry) (st : State) :
  truthy_string t = true -> contains " " t = false ->
  isAbbreviation t = false -> In y years ->
  semester cls = Some (encodeSemester t y) ->
  let st' := dispatch (handleOpenEditModal cls) st in
  term st' = t /\ year st' = y.
Proof.
  intros Ht Hs Hab Hy Hsem st'.
  destruct (years_plain y Hy) as [Hyt Hys].
  destruct (getTermAbbreviation_plain t Ht Hs) as [Hat Has].
  destruct (handleOpenEditModal_state cls st) as (_ & _ & _ & _ & _ & Hp).
  fold st' in Hp.
  assert (Hparse : parseSemester cls st = (t, y)).
  { unfold parseSemester. rewrite Hsem. unfold encodeSemester. rewrite Ht, Hyt.
    cbn [andb truthy_str]. rewrite (truthy_string_append _ _ Hat).
    change (getTermAbbreviation t ++ " " ++ y)
      with (getTermAbbreviation t ++ String " " y).
    rewrite (split_first " " _ _ Has), (split_whole " " y Hys).
    now rewrite (getFullTermName_getTermAbbreviation t Hab). }
  rewrite Hparse in Hp. now inversion Hp.
Qed.

(** ** Saving the form *)

Lemma guard_isFormValid (a b c d e : bool) :
  negb a || negb b || negb c || negb d || negb e = negb (a && b && c && d && e).
Proof. destruct a, b, c, d, e; reflexivity. Qed.

Lemma classes_autoSave (st : State) : classes (autoSave st) = classes st.
Proof. unfold autoSave. destruct (classes st) eqn:E; [exact E|reflexivity]. Qed.

Lemma storage_autoSave (st : State) :
  classes st <> [] -> storage (autoSave st) = Some (classes st).
Proof. unfold autoSave. destruct (classes st) eqn:E; [congruence|reflexivity]. Qed.

Lemma handleSaveClass_invalid (now : number) (st : State) :
  isFormValid st = false -> handleSaveClass now st = (st, false).
Proof.
  intros Hv. unfold handleSaveClass. rewrite guard_isFormValid.
  unfold isFormValid in Hv. rewrite Hv. reflexivity.
Qed.

Section ValidSubmit.

Variable now : number.
Variable st : State.
Hypothesis valid : isFormValid st = true.

Lemma handleSaveClass_valid :
  handleSaveClass now st =
  ({| isModalOpen := false; isEditMode := isEditMode st;
      classes := savedClasses now st;
      currentClass := emptyDraft; term := ""; year := "";
      storage := storage st; alerts := alerts st |}, true).
Proof.
  unfold handleSaveClass. rewrite guard_isFormValid.
  unfold isFormValid in valid. rewrite valid. reflexivity.
Qed.

Lemma classes_dispatch_save :
  classes (dispatch (handleSaveClass now) st) = savedClasses now st.
Proof.
  unfold dispatch. rewrite handleSaveClass_valid. apply classes_autoSave.
Qed.

(** A valid submit closes the modal and empties the form. *)
Lemma form_dispatch_save :
  let st' := dispatch (handleSaveClass now) st in
  isModalOpen st' = false /\ currentClass st' = emptyDraft /\
  term st' = "" /\ year st' = "".
Proof.
  unfold dispatch. rewrite handleSaveClass_valid. unfold autoSave.
  cbn [classes]. destruct (savedClasses now st); cbn; repeat split.
Qed.

End ValidSubmit.

(** C5, as stated: a second submit at the same value of [Date.now()] adds
    an entry with the id of the first. *)
Lemma add_same_timestamp_counterexample :
  isFormValid stateArtFilled = true /\ isEditMode stateArtFilled = false /\
  classes stateArtFilled = [calcI] /\
  map id (classes (dispatch (handleSaveClass timestamp) stateArtFilled))
  = [id calcI; id calcI] /\
  same_id (id calcI) (Some timestamp) = true.
Proof. evaluate. Qed.

(** C5, amended. In Adding mode a valid submit appends exactly one entry at
    the end of the roster, made of the fields of the draft, the encoded
    semester and, as id, the value of [Date.now()]; every prior entry keeps
    its place. The new id differs from the id of every entry whose id is an
    earlier time (the component does not compare it with the ids in the
    roster). *)
Theorem add_appends_entry (now : number) (st : State) :
  isFormValid st = true -> isEditMode st = false ->
  let st' := dispatch (handleSaveClass now) st in
  let new := {| id := Some now; name := name (currentClass st);
                grade := grade (currentClass st);
                credits := credits (currentClass st);
                semester := Some (encodeSemester (term st) (year st)) |} in
  classes st' = (classes st ++ [new])%list /\
  (forall k cls, nth_error (classes st) k = Some cls ->
                 nth_error (classes st') k = Some cls) /\
  (forall old i, In old (classes st) -> id old = Some i -> lt i now = true ->
                 same_id (id old) (id new) = false).
Proof.
  intros Hv Hadd st' new.
  assert (Hcl : classes st' = (classes st ++ [new])%list).
  { unfold st'. rewrite (classes_dispatch_save now st Hv).
    unfold savedClasses. rewrite Hadd. reflexivity. }
  split; [exact Hcl|]. split.
  - intros k cls Hk. rewrite Hcl. rewrite nth_error_app1; [exact Hk|].
    apply nth_error_Some. congruence.
  - intros old i _ Hid Hlt. rewrite Hid. cbn [id new same_id].
    now apply lt_strict_eq.
Qed.

Lemma add_appends_entry_witness :
  isFormValid stateArtFilled = true /\ isEditMode stateArtFilled = false /\
  classes (dispatch (handleSaveClass later) stateArtFilled) =
  [ calcI;
    {| id := Some later; name := Some "Art"; grade := Some "B-";
       credits := Some (of_Z 2); semester := Some "SP 25" |} ] /\
  same_id (id calcI) (Some later) = false.
Proof.
  assert (Hv : isFormValid stateArtFilled = true) by reflexivity.
  assert (Ha : isEditMode stateArtFilled = false) by reflexivity.
  split; [exact Hv|]. split; [exact Ha|].
  destruct (add_appends_entry later stateArtFilled Hv Ha) as (Hcl & _ & Hid).
  split.
  - rewrite Hcl. vm_compute. reflexivity.
  - apply (Hid calcI timestamp); [left|..]; vm_compute; reflexivity.
Defined.

(** C6, as stated: editing the entry of id 0 does not replace it; the guard
    [isEditMode && currentClass.id] reads the id 0 as absent and the submit
    appends a second entry. *)
Lemma edit_zero_id_counterexample :
  isFormValid stateZeroEdited = true /\ isEditMode stateZeroEdited = true /\
  classes stateZeroEdited = [entryZero] /\
  same_id (id entryZero) (id (currentClass stateZeroEdited)) = true /\
  map id (classes (dispatch (handleSaveClass timestamp) stateZeroEdited))
  = [Some zero; Some timestamp].
Proof. evaluate. Qed.

(** C6, amended. In Editing mode, when the id of the draft is a number
    other than 0, a valid submit puts the draft with the encoded semester
    (and so with the same id) in the place of every entry that has this id,
    and leaves every other entry as it is, at its place; the length of the
    roster does not change. *)
Theorem edit_replaces_entry (now i : number) (st : State) :
  isFormValid st = true -> isEditMode st = true ->
  id (currentClass st) = Some i -> truthy i = true ->
  let st' := dispatch (handleSaveClass now) st in
  let upd := withSemester (currentClass st) (encodeSemester (term st) (year st)) in
  List.length (classes st') = List.length (classes st) /\
  id upd = Some i /\
  (forall k cls, nth_error (classes st) k = Some cls ->
     nth_error (classes st') k =
     Some (if same_id (id cls) (Some i) then upd else cls)).
Proof.
  intros Hv Hed Hid Hi st' upd.
  assert (Hcl : classes st' =
                map (fun cls => if same_id (id cls) (Some i) then upd else cls)
                    (classes st)).
  { unfold st'. rewrite (classes_dispatch_save now st Hv).
    unfold savedClasses. rewrite Hed, Hid. cbn [truthy_num andb]. rewrite Hi.
    reflexivity. }
  split; [|split].
  - rewrite Hcl. apply length_map.
  - exact Hid.
  - intros k cls Hk. rewrite Hcl, nth_error_map, Hk. reflexivity.
Qed.

Lemma edit_replaces_entry_witness :
  isFormValid stateCalcEdited = true /\ isEditMode stateCalcEdited = true /\
  id (currentClass stateCalcEdited) = Some timestamp /\
  truthy timestamp = true /\
  List.length (classes (dispatch (handleSaveClass later) stateCalcEdited)) = 1%nat /\
  nth_error (classes (dispatch (handleSaveClass later) stateCalcEdited)) 0 =
  Some {| id := Some timestamp; name := Some "Calc I"; grade := Some "A";
          credits := Some (of_Z 4); semester := Some "SP 24" |}.
Proof.
  assert (Hv : isFormValid stateCalcEdited = true) by reflexivity.
  assert (Hed : isEditMode stateCalcEdited = true) by reflexivity.
  assert (Hid : id (currentClass stateCalcEdited) = Some timestamp) by reflexivity.
  assert (Hi : truthy timestamp = true) by reflexivity.
  do 4 (split; [assumption|]).
  destruct (edit_replaces_entry later timestamp stateCalcEdited Hv Hed Hid Hi)
    as (Hlen & _ & Hnth).
  split.
  - rewrite Hlen. reflexivity.
  - rewrite (Hnth 0%nat calcI eq_refl). vm_compute. reflexivity.
Defined.

Lemma incomplete_isFormValid (st : State) :
  incomplete st -> isFormValid st = false.
Proof.
  unfold incomplete, isFormValid.
  intros [H|[H|[H|[H|[H|[H|H]]]]]]; rewrite H;
    cbn [truthy_str truthy_num truthy_string];
    rewrite ?andb_false_r, ?andb_false_l; reflexivity.
Qed.

(** C7. When one of name, grade, credits, term and year is missing,
    [handleSaveClass] returns the state it was given and does not call
    [setClasses]: the event leaves the whole state, the roster and the
    stored item included, as it was. *)
Theorem submit_incomplete_noop (now : number) (st : State) :
  incomplete st ->
  handleSaveClass now st = (st, false) /\
  dispatch (handleSaveClass now) st = st.
Proof.
  intros Hinc. pose proof (incomplete_isFormValid st Hinc) as Hv.
  unfold dispatch. rewrite (handleSaveClass_invalid now st Hv). now split.
Qed.

Lemma submit_incomplete_noop_witness :
  incomplete stateArtNoYear /\
  handleSaveClass timestamp stateArtNoYear = (stateArtNoYear, false) /\
  dispatch (handleSaveClass timestamp) stateArtNoYear = stateArtNoYear.
Proof.
  assert (Hinc : incomplete stateArtNoYear) by (do 6 right; reflexivity).
  split; [exact Hinc|]. exact (submit_incomplete_noop timestamp stateArtNoYear Hinc).
Defined.

(** ** Persistence *)

(** After an event that has set a roster that is not empty, the stored item
    is that roster. *)
Lemma dispatch_persists (h : handler) (st : State) :
  snd (h st) = true -> classes (fst (h st)) <> [] ->
  storage (dispatch h st) = Some (classes (dispatch h st)).
Proof.
  unfold dispatch. destruct (h st) as [st' set]. cbn [fst snd].
  intros -> Hne. rewrite classes_autoSave. now apply storage_autoSave.
Qed.

(** Deleting an id that no entry has, in a roster that is not empty, leaves
    the roster as it is and writes it. *)
Lemma delete_absent_id (target : option number) (st : State) :
  classes st <> [] ->
  Forall (fun cls => same_id (id cls) target = false) (classes st) ->
  let st' := dispatch (handleDeleteClass target) st in
  classes st' = classes st /\ storage st' = Some (classes st).
Proof.
  intros Hne Hall st'.
  assert (Hf : filter (fun cls => negb (same_id (id cls) target)) (classes st)
               = classes st).
  { clear Hne. induction Hall as [|cls l Hc _ IH]; [reflexivity|].
    cbn [filter]. now rewrite Hc, IH. }
  assert (Hcl : classes st' = classes st).
  { unfold st', dispatch, handleDeleteClass. rewrite classes_autoSave.
    cbn [classes]. exact Hf. }
  split; [exact Hcl|]. rewrite <- Hcl. unfold st'.
  apply dispatch_persists; [reflexivity|].
  unfold handleDeleteClass. cbn [fst classes]. now rewrite Hf.
Qed.

(** C8. Deleting the only class empties the roster, and the effect does
    not write: the stored item is still the roster with the deleted class. *)
Theorem delete_last_not_persisted :
  classes stateOneClass = [calcI] /\ storage stateOneClass = Some [calcI] /\
  classes (dispatch (handleDeleteClass (Some timestamp)) stateOneClass) = [] /\
  storage (dispatch (handleDeleteClass (Some timestamp)) stateOneClass)
  = Some [calcI].
Proof. evaluate. Qed.

(** ** Opening the form on an entry *)

(** C9. Opening the form on [entryOneWord], whose semester "Spring" is one
    token, after a cancelled dialog copies the entry into the draft but
    leaves in [term] and [year] the values of the cancelled dialog, not the
    empty string. *)
Theorem openEdit_keeps_previous_semester :
  split " " "Spring" = ["Spring"] /\
  term stateCancelled = "Fall" /\ year stateCancelled = "24" /\
  currentClass (dispatch (handleOpenEditModal entryOneWord) stateCancelled)
  = entryOneWord /\
  term (dispatch (handleOpenEditModal entryOneWord) stateCancelled) = "Fall" /\
  year (dispatch (handleOpenEditModal entryOneWord) stateCancelled) = "24".
Proof. evaluate. Qed.

(** * Further properties of the component *)

(** ** Strict equality *)

Section StrictEquality.

Lemma strict_eq_true (x y : number) :
  strict_eq x y = true -> (is_zero x /\ is_zero y) \/ x = y.
Proof.
  unfold strict_eq, SFeqb.
  destruct x as [sx|sx| |sx mx ex], y as [sy|sy| |sy my ey]; cbn [SFcompare is_zero];
    try discriminate; try (intros _; left; split; exact I);
    try (destruct sx; discriminate); try (destruct sy; discriminate).
  - destruct sx, sy; try discriminate; intros _; now right.
  - destruct sx, sy; try discriminate;
      destruct (Z.compare_spec ex ey) as [->| |]; try discriminate;
      change (Pos.compare_cont Eq mx my) with (Pos.compare mx my);
      destruct (Pos.compare_spec mx my) as [->| |]; try discriminate;
      intros _; now right.
Qed.

Lemma strict_eq_refl (x : number) : x <> NaN -> strict_eq x x = true.
Proof.
  unfold strict_eq, SFeqb. intros Hx.
  destruct x as [sx|sx| |sx mx ex]; cbn [SFcompare]; try reflexivity.
  - now destruct sx.
  - now elim Hx.
  - change (Pos.compare_cont Eq mx mx) with (Pos.compare mx mx).
    destruct sx; rewrite Z.compare_refl, Pos.compare_refl; reflexivity.
Qed.

Lemma strict_eq_zeros (x y : number) :
  is_zero x -> is_zero y -> strict_eq x y = true.
Proof. destruct x, y; cbn [is_zero]; first [tauto | intros; reflexivity]. Qed.

(** The two zeros compare alike with every number. *)
Lemma strict_eq_zero_l (x y z : number) :
  is_zero x -> is_zero y -> strict_eq x z = strict_eq y z.
Proof.
  destruct x, y; cbn [is_zero]; first [tauto | intros _ _; now destruct z].
Qed.

Lemma strict_eq_sym (x y : number) : strict_eq x y = strict_eq y x.
Proof.
  destruct (strict_eq x y) eqn:Exy, (strict_eq y x) eqn:Eyx; try reflexivity.
  - destruct (strict_eq_true x y Exy) as [[Hx Hy]| ->].
    + now rewrite (strict_eq_zeros y x Hy Hx) in Eyx.
    + congruence.
  - destruct (strict_eq_true y x Eyx) as [[Hy Hx]| ->].
    + now rewrite (strict_eq_zeros x y Hx Hy) in Exy.
    + congruence.
Qed.

Lemma same_id_sym (a b : option number) : same_id a b = same_id b a.
Proof. destruct a, b; cbn [same_id]; try reflexivity. apply strict_eq_sym. Qed.

(** Ids that are equal compare alike with every id. *)
Lemma same_id_congruence (a u b : option number) :
  same_id a u = true -> same_id u b = same_id a b.
Proof.
  destruct a as [x|], u as [y|]; cbn [same_id]; try discriminate; [|reflexivity].
  intros H. destruct b as [z|]; [|reflexivity].
  destruct (strict_eq_true x y H) as [[Hx Hy]| ->]; [|reflexivity].
  now apply strict_eq_zero_l.
Qed.

Lemma lt_zero_truthy (x : number) : lt zero x = true -> truthy x = true.
Proof.
  unfold lt, SFltb, zero. destruct x as [s|s| |s m e]; cbn; try discriminate;
    reflexivity.
Qed.

Lemma lt_zero_same_id (x : number) :
  lt zero x = true -> same_id (Some x) (Some x) = true.
Proof.
  intros H. cbn [same_id]. apply strict_eq_refl. intros ->. discriminate.
Qed.

End StrictEquality.

(** ** The form and its guard *)

(** X1. The condition that enables the submit button, [isFormValid], is the
    condition under which [handleSaveClass] sets the roster: when it is
    false the submit leaves the state as it is, when it is true the submit
    closes the dialog and empties the form. *)
Theorem submit_guard_agrees_with_isFormValid (now : number) (st : State) :
  snd (handleSaveClass now st) = isFormValid st /\
  (isFormValid st = false -> dispatch (handleSaveClass now) st = st) /\
  (isFormValid st = true ->
   isModalOpen (dispatch (handleSaveClass now) st) = false /\
   currentClass (dispatch (handleSaveClass now) st) = emptyDraft /\
   term (dispatch (handleSaveClass now) st) = "" /\
   year (dispatch (handleSaveClass now) st) = "").
Proof.
  destruct (isFormValid st) eqn:Hv.
  - split; [now rewrite (handleSaveClass_valid now st Hv)|].
    split; [discriminate|]. intros _. exact (form_dispatch_save now st Hv).
  - split; [now rewrite (handleSaveClass_invalid now st Hv)|].
    split; [|discriminate]. intros _. unfold dispatch.
    now rewrite (handleSaveClass_invalid now st Hv).
Qed.

Lemma isFormValid_after_save (now : number) (st : State) :
  isFormValid (dispatch (handleSaveClass now) st) = isFormValid st && false.
Proof.
  destruct (isFormValid st) eqn:Hv.
  - destruct (form_dispatch_save now st Hv) as (_ & Hc & _ & _).
    unfold isFormValid at 1. now rewrite Hc.
  - unfold dispatch. rewrite (handleSaveClass_invalid now st Hv). exact Hv.
Qed.

(** X2. A submit right after the add form was opened does nothing, and
    neither does a second submit after a first one, whatever [Date.now()]
    returns: one filled form adds at most one entry. *)
Theorem submit_twice_is_submit_once (now now' : number) (st : State) :
  dispatch (handleSaveClass now) (dispatch handleOpenAddModal st)
  = dispatch handleOpenAddModal st /\
  dispatch (handleSaveClass now') (dispatch (handleSaveClass now) st)
  = dispatch (handleSaveClass now) st.
Proof.
  split.
  - unfold dispatch at 1. now rewrite handleSaveClass_invalid.
  - pose proof (isFormValid_after_save now st) as Hv.
    rewrite andb_false_r in Hv.
    unfold dispatch at 1. now rewrite (handleSaveClass_invalid now' _ Hv).
Qed.

(** X3. A row whose entry has no semester (or an empty one) opens a form
    that cannot be submitted: [term] and [year] are empty, and a submit
    leaves everything as it is until both are chosen. *)
Theorem legacy_entry_opens_invalid_form (now : number) (cls : ClassEntry)
    (st : State) :
  truthy_str (semester cls) = false ->
  term (dispatch (handleOpenEditModal cls) st) = "" /\
  year (dispatch (handleOpenEditModal cls) st) = "" /\
  isFormValid (dispatch (handleOpenEditModal cls) st) = false /\
  dispatch (handleSaveClass now) (dispatch (handleOpenEditModal cls) st)
  = dispatch (handleOpenEditModal cls) st.
Proof.
  intros Hsem.
  destruct (handleOpenEditModal_state cls st) as (_ & _ & _ & _ & _ & Hp).
  cbv zeta in Hp. unfold parseSemester in Hp. rewrite Hsem in Hp.
  injection Hp as Ht Hy.
  assert (Hv : isFormValid (dispatch (handleOpenEditModal cls) st) = false).
  { unfold isFormValid. rewrite Ht. cbn [truthy_string].
    now rewrite andb_false_r. }
  repeat split; try assumption.
  unfold dispatch at 1. now rewrite (handleSaveClass_invalid now _ Hv).
Qed.

Lemma legacy_entry_opens_invalid_form_witness :
  truthy_str (semester entryNoSemester) = false /\
  isFormValid (dispatch (handleOpenEditModal entryNoSemester) sessionOne) = false /\
  dispatch (handleSaveClass later) (dispatch (handleOpenEditModal entryNoSemester) sessionOne)
  = dispatch (handleOpenEditModal entryNoSemester) sessionOne.
Proof.
  assert (H : truthy_str (semester entryNoSemester) = false) by reflexivity.
  split; [exact H|].
  destruct (legacy_entry_opens_invalid_form later entryNoSemester sessionOne H)
    as (_ & _ & Hv & Hs).
  split; [exact Hv|exact Hs].
Defined.

(** ** Grades and their colours *)

Lemma lookup_enumerated (g : string) :
  lookup g gradePoints = None <-> enumerated g = false.
Proof.
  split.
  - unfold enumerated. intros Hl. destruct (existsb _ _) eqn:E; [|reflexivity].
    apply existsb_exists in E. destruct E as [k [Hin Hk]].
    apply String.eqb_eq in Hk. subst k.
    cbn [map fst gradePoints] in Hin.
    repeat (destruct Hin as [<-|Hin]; [vm_compute in Hl; discriminate|]).
    destruct Hin.
  - apply lookup_absent.
Qed.

(** X4. A grade is shown in grey exactly when the grade-point table has no
    entry for it: the ten grades that count for the GPA are the ten that
    [getGradeColor] gives a colour of their own. *)
Theorem grey_badge_iff_no_grade_points (g : string) :
  getGradeColor g = "bg-gray-100 text-gray-800" <-> lookup g gradePoints = None.
Proof.
  rewrite lookup_enumerated. unfold getGradeColor, enumerated.
  cbn [map fst gradePoints existsb].
  repeat match goal with
         | |- context [String.eqb g ?k] =>
             destruct (String.eqb g k); [split; discriminate|]
         end.
  split; reflexivity.
Qed.

(** ** Terms and years *)

(** X5. [getFullTermName] undoes [getTermAbbreviation] on every term except
    the four abbreviations themselves, and [getTermAbbreviation] undoes
    [getFullTermName] on every string except the four full names. *)
Theorem term_conversions_inverse (t : string) :
  (getFullTermName (getTermAbbreviation t) = t <-> isAbbreviation t = false) /\
  (getTermAbbreviation (getFullTermName t) = t <-> isFullTermName t = false).
Proof.
  split; split.
  - intros H. destruct (isAbbreviation t) eqn:E; [|reflexivity].
    unfold isAbbreviation in E.
    repeat (apply orb_true_iff in E; destruct E as [E|E]);
      apply String.eqb_eq in E; subst t; vm_compute in H; discriminate.
  - apply getFullTermName_getTermAbbreviation.
  - intros H. destruct (isFullTermName t) eqn:E; [|reflexivity].
    unfold isFullTermName in E.
    repeat (apply orb_true_iff in E; destruct E as [E|E]);
      apply String.eqb_eq in E; subst t; vm_compute in H; discriminate.
  - unfold isFullTermName, getFullTermName. intros H.
    repeat (apply orb_false_iff in H; destruct H as [H ?]).
    repeat match goal with
           | |- context [String.eqb t ?k] =>
               destruct (String.eqb_spec t k) as [->|_]; [reflexivity|]
           end.
    unfold getTermAbbreviation.
    repeat match goal with
           | E : String.eqb t _ = false |- _ => rewrite E; clear E
           end.
    reflexivity.
Qed.

Lemma isDigit_cases (c : ascii) :
  isDigit c = true ->
  In c ["0"; "1"; "2"; "3"; "4"; "5"; "6"; "7"; "8"; "9"]%char.
Proof.
  destruct c as [[|] [|] [|] [|] [|] [|] [|] [|]]; vm_compute;
    intros H; try discriminate; tauto.
Qed.

Lemma In_years_b (y : string) : existsb (String.eqb y) years = true -> In y years.
Proof.
  intros H. apply existsb_exists in H. destruct H as [k [Hin Hk]].
  apply String.eqb_eq in Hk. now subst.
Qed.

(** X6. The options of the year selector are exactly the strings made of
    two decimal digits. *)
Theorem years_are_the_two_digit_strings (y : string) :
  In y years <->
  exists a b, y = String a (String b EmptyString) /\
              isDigit a = true /\ isDigit b = true.
Proof.
  split.
  - intros Hin.
    assert (Hall : forallb (fun y => match y with
                                     | String a (String b EmptyString) =>
                                         isDigit a && isDigit b
                                     | _ => false
                                     end) years = true)
      by (vm_compute; reflexivity).
    rewrite forallb_forall in Hall. specialize (Hall y Hin).
    destruct y as [|a [|b [|c r]]]; try discriminate.
    apply andb_true_iff in Hall. exists a, b. tauto.
  - intros (a & b & -> & Ha & Hb).
    apply isDigit_cases in Ha. apply isDigit_cases in Hb.
    cbn [In] in Ha, Hb.
    repeat (destruct Ha as [<-|Ha]);
      repeat (destruct Hb as [<-|Hb]);
      try contradiction; apply In_years_b; vm_compute; reflexivity.
Qed.

(** ** Splitting the semester *)

Section Tokens.

Variable sep : ascii.

Lemma split_length (s : string) :
  List.length (split sep s) = S (count sep s).
Proof.
  induction s as [|c s IH]; [reflexivity|].
  cbn [split count]. destruct (Ascii.eqb c sep).
  - cbn [List.length]. now rewrite IH.
  - destruct (split sep s) as [|tok toks]; [discriminate|].
    cbn [List.length] in *. now rewrite IH.
Qed.

Lemma concat_cons (h t : string) (l : list string) :
  String.concat (String sep EmptyString) (h :: t :: l)
  = h ++ String sep (String.concat (String sep EmptyString) (t :: l)).
Proof. reflexivity. Qed.

(** Joining the tokens with the separator gives the string back. *)
Lemma concat_split (s : string) :
  String.concat (String sep EmptyString) (split sep s) = s.
Proof.
  induction s as [|c s IH]; [reflexivity|].
  cbn [split]. pose proof (split_length s) as Hl.
  destruct (split sep s) as [|tok toks]; [discriminate|].
  destruct (Ascii.eqb_spec c sep) as [->|Hne].
  - rewrite concat_cons, IH. reflexivity.
  - destruct toks as [|tok' toks].
    + cbn [String.concat] in *. now rewrite IH.
    + rewrite concat_cons in *. cbn [append]. now rewrite IH.
Qed.

End Tokens.

(** X7. Opening a row decodes its semester exactly when the semester holds
    one space: [term] is then the full name of what precedes the space and
    [year] what follows it; with no space or with several, [term] and [year]
    keep the values they had. *)
Theorem openEdit_decodes_iff_one_space (cls : ClassEntry) (st : State)
    (s : string) :
  semester cls = Some s -> truthy_string s = true ->
  (count " " s = 1%nat ->
   exists a y, s = a ++ " " ++ y /\
               term (dispatch (handleOpenEditModal cls) st) = getFullTermName a /\
               year (dispatch (handleOpenEditModal cls) st) = y) /\
  (count " " s <> 1%nat ->
   term (dispatch (handleOpenEditModal cls) st) = term st /\
   year (dispatch (handleOpenEditModal cls) st) = year st).
Proof.
  intros Hsem Ht.
  destruct (handleOpenEditModal_state cls st) as (_ & _ & _ & _ & _ & Hp).
  cbv zeta in Hp. unfold parseSemester in Hp. rewrite Hsem in Hp.
  cbn [truthy_str] in Hp. rewrite Ht in Hp.
  pose proof (split_length " " s) as Hlen.
  pose proof (concat_split " " s) as Hcat.
  destruct (split " " s) as [|a [|y [|z toks]]]; cbn [List.length] in Hlen.
  - discriminate.
  - split; [intros Hc; rewrite Hc in Hlen; discriminate|].
    intros _. now injection Hp.
  - split; [|intros Hc; elim Hc; congruence].
    intros _. exists a, y. cbn [String.concat] in Hcat.
    injection Hp as H1 H2. now rewrite <- Hcat.
  - split; [intros Hc; rewrite Hc in Hlen; discriminate|].
    intros _. now injection Hp.
Qed.

Lemma openEdit_decodes_iff_one_space_witness :
  semester calcI = Some "FA 24" /\ truthy_string "FA 24" = true /\
  count " " "FA 24" = 1%nat /\
  exists a y, "FA 24" = a ++ " " ++ y /\
              term (dispatch (handleOpenEditModal calcI) sessionOne) = getFullTermName a /\
              year (dispatch (handleOpenEditModal calcI) sessionOne) = y.
Proof.
  do 3 (split; [reflexivity|]).
  exact (proj1 (openEdit_decodes_iff_one_space calcI sessionOne "FA 24"
                  eq_refl eq_refl) eq_refl).
Defined.

(** ** Deleting *)

Lemma filter_filter {A : Type} (f : A -> bool) (l : list A) :
  filter f (filter f l) = filter f l.
Proof.
  induction l as [|x l IH]; [reflexivity|].
  cbn [filter]. destruct (f x) eqn:E; [|exact IH].
  cbn [filter]. now rewrite E, IH.
Qed.

Lemma autoSave_idempotent (st : State) : autoSave (autoSave st) = autoSave st.
Proof. unfold autoSave. destruct (classes st) eqn:E; cbn [classes]; now rewrite ?E. Qed.

Lemma State_eta (st : State) :
  {| isModalOpen := isModalOpen st; isEditMode := isEditMode st;
     classes := classes st; currentClass := currentClass st;
     term := term st; year := year st;
     storage := storage st; alerts := alerts st |} = st.
Proof. now destruct st. Qed.

Lemma dispatch_delete (target : option number) (st : State) :
  dispatch (handleDeleteClass target) st =
  autoSave
    {| isModalOpen := isModalOpen st; isEditMode := isEditMode st;
       classes := filter (fun cls => negb (same_id (id cls) target)) (classes st);
       currentClass := currentClass st; term := term st; year := year st;
       storage := storage st; alerts := alerts st |}.
Proof. reflexivity. Qed.

Lemma form_autoSave (st : State) :
  currentClass (autoSave st) = currentClass st /\
  term (autoSave st) = term st /\ year (autoSave st) = year st /\
  isModalOpen (autoSave st) = isModalOpen st /\
  isEditMode (autoSave st) = isEditMode st /\ alerts (autoSave st) = alerts st.
Proof. unfold autoSave. destruct (classes st); repeat split. Qed.

Lemma form_dispatch_delete (target : option number) (st : State) :
  currentClass (dispatch (handleDeleteClass target) st) = currentClass st /\
  term (dispatch (handleDeleteClass target) st) = term st /\
  year (dispatch (handleDeleteClass target) st) = year st /\
  isModalOpen (dispatch (handleDeleteClass target) st) = isModalOpen st /\
  isEditMode (dispatch (handleDeleteClass target) st) = isEditMode st.
Proof.
  rewrite dispatch_delete.
  match goal with |- context [autoSave ?X] =>
    destruct (form_autoSave X) as (H1 & H2 & H3 & H4 & H5 & _)
  end.
  rewrite H1, H2, H3, H4, H5. repeat split.
Qed.

Lemma classes_dispatch_delete (target : option number) (st : State) :
  classes (dispatch (handleDeleteClass target) st)
  = filter (fun cls => negb (same_id (id cls) target)) (classes st).
Proof.
  unfold dispatch, handleDeleteClass. now rewrite classes_autoSave.
Qed.

(** X8. After a delete no entry of the roster has the deleted id, every
    entry with another id is still there (the roster is the old one with
    some entries taken out, in the old order), the form is not touched, and
    deleting the same id again changes nothing. *)
Theorem delete_removes_the_id_only (target : option number) (st : State) :
  (forall cls, In cls (classes (dispatch (handleDeleteClass target) st)) <->
               In cls (classes st) /\ same_id (id cls) target = false) /\
  (exists keep : ClassEntry -> bool,
     classes (dispatch (handleDeleteClass target) st) = filter keep (classes st)) /\
  currentClass (dispatch (handleDeleteClass target) st) = currentClass st /\
  (term (dispatch (handleDeleteClass target) st),
   year (dispatch (handleDeleteClass target) st)) = (term st, year st) /\
  (isModalOpen (dispatch (handleDeleteClass target) st),
   isEditMode (dispatch (handleDeleteClass target) st))
  = (isModalOpen st, isEditMode st) /\
  dispatch (handleDeleteClass target) (dispatch (handleDeleteClass target) st)
  = dispatch (handleDeleteClass target) st.
Proof.
  pose proof (classes_dispatch_delete target st) as Hcl.
  split; [|split].
  - intros cls. rewrite Hcl, filter_In, negb_true_iff. reflexivity.
  - eexists. exact Hcl.
  - destruct (form_dispatch_delete target st) as (H1 & H2 & H3 & H4 & H5).
    rewrite H1, H2, H3, H4, H5.
    do 3 (split; [reflexivity|]).
    rewrite (dispatch_delete target (dispatch (handleDeleteClass target) st)).
    rewrite Hcl, filter_filter, <- Hcl, State_eta.
    rewrite (dispatch_delete target st). apply autoSave_idempotent.
Qed.

(** ** Rosters without two equal ids *)

Section DistinctIds.

Lemma distinctIds_filter (keep : ClassEntry -> bool) (cs : list ClassEntry) :
  distinctIds cs -> distinctIds (filter keep cs).
Proof.
  unfold distinctIds. induction 1 as [|a l Ha _ IH]; [constructor|].
  cbn [filter]. destruct (keep a); [|exact IH].
  constructor; [|exact IH].
  apply Forall_forall. intros x Hx. apply filter_In in Hx.
  rewrite Forall_forall in Ha. now apply Ha.
Qed.

Lemma distinctIds_append (cs : list ClassEntry) (new : ClassEntry) :
  distinctIds cs ->
  Forall (fun old => same_id (id old) (id new) = false) cs ->
  distinctIds (cs ++ [new]).
Proof.
  unfold distinctIds. induction 1 as [|a l Ha _ IH]; intros Hnew; cbn [app].
  - repeat constructor.
  - inversion Hnew as [|? ? Han Hl]; subst. constructor; [|now apply IH].
    apply Forall_app. split; [exact Ha|]. now constructor.
Qed.

Lemma distinctIds_map (f : ClassEntry -> ClassEntry) (cs : list ClassEntry) :
  (forall a b, same_id (id a) (id b) = false ->
               same_id (id (f a)) (id (f b)) = false) ->
  distinctIds cs -> distinctIds (map f cs).
Proof.
  intros Hf. unfold distinctIds. induction 1 as [|a l Ha _ IH]; [constructor|].
  cbn [map]. constructor; [|exact IH].
  apply Forall_map. revert Ha. apply Forall_impl. intros b. apply Hf.
Qed.

(** Putting an entry of id [i] in the place of the entries of id [i]. *)
Lemma distinctIds_replace (i : option number) (upd : ClassEntry)
    (cs : list ClassEntry) :
  id upd = i -> distinctIds cs ->
  distinctIds (map (fun cls => if same_id (id cls) i then upd else cls) cs).
Proof.
  intros Hi. apply distinctIds_map. intros a b Hab.
  destruct (same_id (id a) i) eqn:Ea, (same_id (id b) i) eqn:Eb.
  - rewrite <- (same_id_congruence (id a) i (id b) Ea) in Hab.
    rewrite same_id_sym in Hab. congruence.
  - rewrite Hi. now rewrite (same_id_congruence (id a) i (id b) Ea).
  - now rewrite Hi.
  - exact Hab.
Qed.

(** In such a roster an entry is the only one with its id. *)
Lemma distinctIds_unique (cs : list ClassEntry) (cls c : ClassEntry) :
  distinctIds cs -> In cls cs -> In c cs ->
  same_id (id c) (id cls) = true -> c = cls.
Proof.
  unfold distinctIds. induction 1 as [|a l Ha _ IH]; intros Hcls Hc Hsame;
    [destruct Hcls|].
  rewrite Forall_forall in Ha.
  destruct Hcls as [->|Hcls], Hc as [->|Hc]; [reflexivity| | |now apply IH].
  - pose proof (Ha c Hc) as H. rewrite same_id_sym in H. congruence.
  - pose proof (Ha cls Hcls) as H. congruence.
Qed.

Lemma length_filter_other_ids (cs : list ClassEntry) (cls : ClassEntry) :
  distinctIds cs -> In cls cs -> same_id (id cls) (id cls) = true ->
  S (List.length (filter (fun c => negb (same_id (id c) (id cls))) cs))
  = List.length cs.
Proof.
  intros Hd. unfold distinctIds in Hd.
  induction Hd as [|a l Ha Hl IH]; intros Hin Hrefl; [destruct Hin|].
  cbn [filter List.length]. destruct (same_id (id a) (id cls)) eqn:Ea; cbn [negb].
  - f_equal. f_equal.
    assert (Hac : a = cls).
    { apply (distinctIds_unique (a :: l) cls a); [now constructor|exact Hin| |exact Ea].
      now left. }
    subst a. clear IH Hin. induction Ha as [|b l Hb Hbl IHl]; [reflexivity|].
    cbn [filter]. rewrite same_id_sym, Hb. cbn [negb]. f_equal.
    inversion Hl; subst. now apply IHl.
  - cbn [List.length]. f_equal. apply IH; [|exact Hrefl].
    destruct Hin as [->|Hin]; [congruence|exact Hin].
Qed.

End DistinctIds.

(** X9. In a roster without two equal ids, the delete button of a row
    removes that row and no other: the roster is one entry shorter, the
    entry is gone and every other entry is still there. (The id of the row
    is not [NaN].) *)
Theorem delete_removes_one_row (cls : ClassEntry) (st : State) :
  distinctIds (classes st) -> In cls (classes st) ->
  same_id (id cls) (id cls) = true ->
  S (List.length (classes (dispatch (perform (ClickDelete cls)) st)))
  = List.length (classes st) /\
  ~ In cls (classes (dispatch (perform (ClickDelete cls)) st)) /\
  (forall other, In other (classes st) -> other <> cls ->
                 In other (classes (dispatch (perform (ClickDelete cls)) st))).
Proof.
  intros Hd Hin Hrefl.
  change (dispatch (perform (ClickDelete cls)) st)
    with (dispatch (handleDeleteClass (id cls)) st).
  rewrite classes_dispatch_delete. split; [|split].
  - now apply length_filter_other_ids.
  - rewrite filter_In, Hrefl. cbn [negb]. intros [_ H]. discriminate.
  - intros other Ho Hne. rewrite filter_In. split; [exact Ho|].
    destruct (same_id (id other) (id cls)) eqn:E; [|reflexivity].
    elim Hne. now apply (distinctIds_unique (classes st)).
Qed.

(** ** What the events do to the roster and to the store *)

Lemma classes_dispatch_perform (a : action) (st : State) :
  classes (dispatch (perform a) st) =
  match a with
  | ClickDelete cls =>
      filter (fun c => negb (same_id (id c) (id cls))) (classes st)
  | ClickSubmit now =>
      if isFormValid st then savedClasses now st else classes st
  | _ => classes st
  end.
Proof.
  destruct a; try reflexivity.
  - unfold dispatch, perform, handleOpenEditModal.
    now destruct (parseSemester cls st).
  - apply classes_dispatch_delete.
  - change (perform (ClickSubmit now)) with (handleSaveClass now).
    destruct (isFormValid st) eqn:Hv.
    + now apply classes_dispatch_save.
    + unfold dispatch. now rewrite (handleSaveClass_invalid now st Hv).
Qed.

Lemma storage_dispatch_perform (a : action) (st : State) :
  storage (dispatch (perform a) st) =
  match a with
  | ClickSave => Some (classes st)
  | ClickDelete _ | ClickSubmit _ =>
      match classes (dispatch (perform a) st) with
      | [] => storage st
      | _ :: _ =>
          if snd (perform a st) then Some (classes (dispatch (perform a) st))
          else storage st
      end
  | _ => storage st
  end.
Proof.
  destruct a; try reflexivity.
  - unfold dispatch, perform, handleOpenEditModal.
    now destruct (parseSemester cls st).
  - unfold dispatch, perform, handleDeleteClass, autoSave. cbn [classes snd].
    now destruct (filter _ (classes st)).
  - change (perform (ClickSubmit now)) with (handleSaveClass now).
    destruct (isFormValid st) eqn:Hv.
    + unfold dispatch. rewrite (handleSaveClass_valid now st Hv).
      unfold autoSave. cbn [classes snd].
      now destruct (savedClasses now st).
    + unfold dispatch. rewrite (handleSaveClass_invalid now st Hv). cbn [snd].
      now destruct (classes st).
Qed.

Lemma persisted_step (a : action) (st : State) :
  persisted st -> persisted (dispatch (perform a) st).
Proof.
  unfold persisted. intros Hp Hne.
  pose proof (classes_dispatch_perform a st) as Hc.
  pose proof (storage_dispatch_perform a st) as Hs.
  destruct a; rewrite Hs; try (rewrite Hc in *; now apply Hp);
    try (now rewrite Hc).
  - destruct (classes (dispatch (perform (ClickDelete cls)) st)); [congruence|].
    reflexivity.
  - destruct (classes (dispatch (perform (ClickSubmit now)) st)) eqn:E;
      [congruence|].
    destruct (snd (perform (ClickSubmit now) st)) eqn:Es; [reflexivity|].
    change (perform (ClickSubmit now)) with (handleSaveClass now) in Es.
    destruct (isFormValid st) eqn:Hv;
      [now rewrite (handleSaveClass_valid now st Hv) in Es|].
    rewrite Hc. apply Hp. rewrite <- Hc. discriminate.
Qed.

(** X10. Whatever the user does, from a state where the stored item is the
    roster (or the roster is empty): whenever the roster is not empty, the
    stored item is the roster. *)
Theorem roster_stays_persisted (acts : list action) (st : State) :
  persisted st -> persisted (play acts st).
Proof.
  revert st. induction acts as [|a acts IH]; intros st Hp; [exact Hp|].
  cbn [play fold_left]. apply IH. now apply persisted_step.
Qed.

Lemma roster_stays_persisted_witness :
  persisted sessionOne /\ classes (play addArt sessionOne) = [calcI; art] /\
  storage (play addArt sessionOne) = Some [calcI; art].
Proof.
  assert (Hp : persisted sessionOne) by (intros _; reflexivity).
  split; [exact Hp|].
  assert (Hc : classes (play addArt sessionOne) = [calcI; art])
    by (vm_compute; reflexivity).
  split; [exact Hc|]. rewrite <- Hc.
  apply (roster_stays_persisted addArt sessionOne Hp).
  rewrite Hc. discriminate.
Defined.

(** X11. The store is written by the Save button, which writes the roster
    as it is, empty or not; after any other event the stored item is what
    it was, or it is the new roster and this roster is not empty. *)
Theorem only_save_stores_an_empty_roster (a : action) (st : State) :
  match a with
  | ClickSave =>
      storage (dispatch (perform a) st) = Some (classes st) /\
      classes (dispatch (perform a) st) = classes st
  | _ =>
      storage (dispatch (perform a) st) = storage st \/
      (classes (dispatch (perform a) st) <> [] /\
       storage (dispatch (perform a) st)
       = Some (classes (dispatch (perform a) st)))
  end.
Proof.
  pose proof (storage_dispatch_perform a st) as Hs.
  destruct a; try (left; exact Hs); [split; reflexivity| |].
  - destruct (classes (dispatch (perform (ClickDelete cls)) st)) eqn:E;
      [left; exact Hs|].
    destruct (snd (perform (ClickDelete cls) st)); [|left; exact Hs].
    right. split; [discriminate|exact Hs].
  - destruct (classes (dispatch (perform (ClickSubmit now)) st)) eqn:E;
      [left; exact Hs|].
    destruct (snd (perform (ClickSubmit now) st)); [|left; exact Hs].
    right. split; [discriminate|exact Hs].
Qed.

(** X12. A roster without two equal ids stays so under every event, when
    the value of [Date.now()] at each submit is later than the ids in the
    roster. *)
Theorem ids_stay_distinct (a : action) (st : State) :
  distinctIds (classes st) -> clockAhead st a ->
  distinctIds (classes (dispatch (perform a) st)).
Proof.
  intros Hd Hclock. rewrite classes_dispatch_perform.
  destruct a; try exact Hd.
  - now apply distinctIds_filter.
  - destruct (isFormValid st); [|exact Hd]. unfold savedClasses.
    destruct (isEditMode st && truthy_num (id (currentClass st))).
    + now apply distinctIds_replace.
    + apply distinctIds_append; [exact Hd|].
      cbn [clockAhead] in Hclock. revert Hclock. apply Forall_impl.
      intros old (i & Hi & Hlt). rewrite Hi. cbn [id same_id].
      now apply lt_strict_eq.
Qed.

Lemma ids_stay_distinct_witness :
  distinctIds (classes (play (removelast addArt) sessionOne)) /\
  clockAhead (play (removelast addArt) sessionOne) (ClickSubmit later) /\
  distinctIds (classes sessionTwo).
Proof.
  assert (Hd : distinctIds (classes (play (removelast addArt) sessionOne))).
  { vm_compute. repeat constructor. }
  assert (Hc : clockAhead (play (removelast addArt) sessionOne) (ClickSubmit later)).
  { cbn [clockAhead]. apply Forall_forall. intros x Hx.
    vm_compute in Hx. destruct Hx as [<-|[]].
    eexists. split; [reflexivity|]. vm_compute. reflexivity. }
  split; [exact Hd|]. split; [exact Hc|].
  exact (ids_stay_distinct (ClickSubmit later) _ Hd Hc).
Defined.

Lemma delete_removes_one_row_witness :
  distinctIds (classes sessionTwo) /\ In calcI (classes sessionTwo) /\
  same_id (id calcI) (id calcI) = true /\
  classes (dispatch (perform (ClickDelete calcI)) sessionTwo) = [art].
Proof.
  assert (Hd : distinctIds (classes sessionTwo)) by (vm_compute; repeat constructor).
  assert (Hin : In calcI (classes sessionTwo)) by (vm_compute; tauto).
  assert (Hr : same_id (id calcI) (id calcI) = true) by reflexivity.
  do 3 (split; [assumption|]).
  destruct (delete_removes_one_row calcI sessionTwo Hd Hin Hr) as (Hlen & _ & Hkeep).
  assert (Hart : In art (classes (dispatch (perform (ClickDelete calcI)) sessionTwo))).
  { apply Hkeep; [vm_compute; tauto|discriminate]. }
  destruct (classes (dispatch (perform (ClickDelete calcI)) sessionTwo))
    as [|x [|x' l]]; try discriminate.
  now destruct Hart as [->|[]].
Defined.

(** ** Rosters built through the form *)

Section BuiltByForm.

Lemma gradeOptions_truthy (g : string) :
  In g gradeOptions -> truthy_string g = true.
Proof. cbn [In gradeOptions]. intuition (subst; reflexivity). Qed.

Lemma creditOptions_truthy (v : string) :
  In v creditOptions -> truthy (parseInt v) = true.
Proof. cbn [In creditOptions]. intuition (subst; reflexivity). Qed.

Lemma termOptions_plain (t : string) :
  In t termOptions ->
  truthy_string t = true /\ contains " " t = false /\ isAbbreviation t = false.
Proof. cbn [In termOptions]. intuition (subst; reflexivity). Qed.

(** The semester written by the form is read back by [parseSemester]. *)
Lemma parseSemester_built (t y : string) (cls : ClassEntry) (st : State) :
  In t termOptions -> In y years ->
  semester cls = Some (getTermAbbreviation t ++ " " ++ y) ->
  parseSemester cls st = (t, y).
Proof.
  intros Ht Hy Hsem.
  destruct (termOptions_plain t Ht) as (Htt & Hts & Hta).
  destruct (years_plain y Hy) as [Hyt Hys].
  destruct (getTermAbbreviation_plain t Htt Hts) as [Hat Has].
  unfold parseSemester. rewrite Hsem. cbn [truthy_str].
  rewrite (truthy_string_append _ _ Hat).
  change (getTermAbbreviation t ++ " " ++ y)
    with (getTermAbbreviation t ++ String " " y).
  rewrite (split_first " " _ _ Has), (split_whole " " y Hys).
  now rewrite (getFullTermName_getTermAbbreviation t Hta).
Qed.

(** A valid form whose fields come from the controls gives a well-built
    entry, with any positive id. *)
Lemma builtByForm_of_draft (st : State) (i : number) :
  draftFromControls st -> isFormValid st = true -> lt zero i = true ->
  builtByForm {| id := Some i; name := name (currentClass st);
                 grade := grade (currentClass st);
                 credits := credits (currentClass st);
                 semester := Some (encodeSemester (term st) (year st)) |}.
Proof.
  intros (Hg & Hc & Ht & Hy & _) Hv Hi. unfold isFormValid in Hv.
  repeat (apply andb_true_iff in Hv; destruct Hv as [Hv ?]).
  unfold builtByForm. cbn [id name grade credits semester].
  split; [exact Hv|]. split; [|split; [|split]].
  - destruct Hg as [Hg|Hg]; [|exact Hg].
    rewrite Hg in *. discriminate.
  - destruct Hc as [Hc|Hc]; [|exact Hc].
    rewrite Hc in *. discriminate.
  - destruct Ht as [Ht|Ht]; [rewrite Ht in *; discriminate|].
    destruct Hy as [Hy|Hy]; [rewrite Hy in *; discriminate|].
    exists (term st), (year st). split; [exact Ht|]. split; [exact Hy|].
    unfold encodeSemester.
    destruct (truthy_string (term st)), (truthy_string (year st));
      try discriminate. reflexivity.
  - now exists i.
Qed.

(** What the events leave in the form. *)
Lemma draft_dispatch_perform (a : action) (st : State) :
  (currentClass (dispatch (perform a) st),
   term (dispatch (perform a) st), year (dispatch (perform a) st)) =
  match a with
  | ClickAdd => (emptyDraft, "", "")
  | ClickRow cls => (cls, fst (parseSemester cls st), snd (parseSemester cls st))
  | TypeName v => (withName (currentClass st) v, term st, year st)
  | ChooseGrade v => (withGrade (currentClass st) v, term st, year st)
  | ChooseCredits v =>
      (withCredits (currentClass st) (parseInt v), term st, year st)
  | ChooseTerm v => (currentClass st, v, year st)
  | ChooseYear v => (currentClass st, term st, v)
  | ClickSubmit now =>
      if isFormValid st then (emptyDraft, "", "")
      else (currentClass st, term st, year st)
  | _ => (currentClass st, term st, year st)
  end.
Proof.
  destruct a; try reflexivity.
  - unfold dispatch, perform, handleOpenEditModal.
    now destruct (parseSemester cls st).
  - change (perform (ClickDelete cls)) with (handleDeleteClass (id cls)).
    destruct (form_dispatch_delete (id cls) st) as (H1 & H2 & H3 & _).
    now rewrite H1, H2, H3.
  - change (perform (ClickSubmit now)) with (handleSaveClass now).
    destruct (isFormValid st) eqn:Hv.
    + destruct (form_dispatch_save now st Hv) as (_ & H1 & H2 & H3).
      now rewrite H1, H2, H3.
    + unfold dispatch. now rewrite (handleSaveClass_invalid now st Hv).
Qed.

Lemma builtByForm_step (a : action) (st : State) :
  Forall builtByForm (classes st) /\ draftFromControls st ->
  offered st a ->
  Forall builtByForm (classes (dispatch (perform a) st)) /\
  draftFromControls (dispatch (perform a) st).
Proof.
  intros [Hcs Hdr] Hoff.
  pose proof (classes_dispatch_perform a st) as Hc.
  pose proof (draft_dispatch_perform a st) as Hd.
  assert (Hv' : match a with ClickSubmit _ => isFormValid st = true | _ => True end)
    by (destruct a; try exact I; exact (proj1 Hoff)).
  unfold draftFromControls.
  destruct a as [| |cls|cls|v|v|v|v|v| |b|now]; try rewrite Hv' in Hd;
    pose proof (f_equal (fun p => fst (fst p)) Hd) as Hd1;
    pose proof (f_equal (fun p => snd (fst p)) Hd) as Hd2;
    pose proof (f_equal snd Hd) as Hd3;
    cbn [fst snd] in Hd1, Hd2, Hd3; rewrite Hd1, Hd2, Hd3, Hc; clear Hd Hd1 Hd2 Hd3;
    cbn [offered] in Hoff.
  - (* ClickAdd *)
    split; [exact Hcs|]. cbn. tauto.
  - (* ClickSave *)
    split; [exact Hcs|exact Hdr].
  - (* ClickRow *)
    split; [exact Hcs|].
    rewrite Forall_forall in Hcs. destruct (Hcs cls Hoff) as (_ & Hg & Hcr & Hs & Hi).
    destruct Hs as (t & y & Ht & Hy & Hs).
    rewrite (parseSemester_built t y cls st Ht Hy Hs). cbn [fst snd]. tauto.
  - (* ClickDelete *)
    split; [|exact Hdr].
    apply Forall_forall. intros x Hx. apply filter_In in Hx.
    rewrite Forall_forall in Hcs. now apply Hcs.
  - (* TypeName *)
    split; [exact Hcs|exact Hdr].
  - (* ChooseGrade *)
    split; [exact Hcs|]. destruct Hdr as (_ & H2 & H3 & H4 & H5).
    cbn [withGrade grade credits id]. repeat split; try assumption.
    right. now exists v.
  - (* ChooseCredits *)
    split; [exact Hcs|]. destruct Hdr as (H1 & _ & H3 & H4 & H5).
    cbn [withCredits grade credits id]. repeat split; try assumption.
    right. now exists v.
  - (* ChooseTerm *)
    split; [exact Hcs|]. destruct Hdr as (H1 & H2 & _ & H4 & H5). tauto.
  - (* ChooseYear *)
    split; [exact Hcs|]. destruct Hdr as (H1 & H2 & H3 & _ & H5). tauto.
  - (* ClickCancel *)
    split; [exact Hcs|exact Hdr].
  - (* OpenChange *)
    split; [exact Hcs|exact Hdr].
  - (* ClickSubmit *)
    destruct Hoff as [Hv Hnow]. rewrite Hv. split; [|cbn; tauto].
    unfold savedClasses.
    destruct (isEditMode st && truthy_num (id (currentClass st))) eqn:Eb.
    + apply andb_true_iff in Eb. destruct Eb as [_ Hid].
      destruct Hdr as (H1 & H2 & H3 & H4 & H5).
      destruct H5 as [H5|(i & H5 & Hi)]; [rewrite H5 in Hid; discriminate|].
      pose proof (builtByForm_of_draft st i (conj H1 (conj H2 (conj H3 (conj H4
                    (or_intror (ex_intro _ i (conj H5 Hi))))))) Hv Hi) as Hb.
      apply Forall_map. revert Hcs. apply Forall_impl. intros c Hcb.
      destruct (same_id (id c) (id (currentClass st))); [|exact Hcb].
      unfold withSemester. now rewrite H5.
    + apply Forall_app. split; [exact Hcs|]. constructor; [|constructor].
      now apply builtByForm_of_draft.
Qed.

Lemma reachable_builtByForm (st : State) :
  reachable st -> Forall builtByForm (classes st) /\ draftFromControls st.
Proof.
  induction 1 as [|st a _ IH Hoff].
  - split; [constructor|]. unfold draftFromControls. cbn.
    repeat split; left; reflexivity.
  - now apply builtByForm_step.
Qed.

End BuiltByForm.

Ltac step_by_step :=
  unfold play; cbn [fold_left];
  repeat (apply reachable_step;
          [|first [exact I | split; vm_compute; reflexivity | vm_compute; tauto]]);
  apply reachable_initial.

Lemma reachable_sessionOne : reachable sessionOne.
Proof. unfold sessionOne, addCalcI. step_by_step. Qed.

Lemma reachable_sessionTwo : reachable sessionTwo.
Proof. unfold sessionTwo, sessionOne, addArt, addCalcI. step_by_step. Qed.

Lemma builtByForm_counted (cls : ClassEntry) :
  builtByForm cls -> counted cls = true /\ unlisted cls = false.
Proof.
  intros (_ & (g & Hg & Eg) & (v & Hv & Ev) & _).
  assert (Hc : counted cls = true).
  { unfold counted. rewrite Eg, Ev. cbn [truthy_str truthy_num].
    now rewrite (gradeOptions_truthy g Hg), (creditOptions_truthy v Hv). }
  split; [exact Hc|]. unfold unlisted. rewrite Hc, Eg. cbn [andb].
  apply negb_false_iff. cbn [In gradeOptions] in Hg.
  intuition (subst; reflexivity).
Qed.

(** X13. In a session that starts with nothing stored, every entry of the
    roster is as the form builds it: a non-empty name, one of the ten
    grades, credits from 1 to 6, a semester made of an abbreviation, a space
    and a two-digit year, and a positive id. So every entry is counted in
    the GPA with a grade that the table has. *)
Theorem session_rosters_are_built_by_form (st : State) :
  reachable st ->
  Forall (fun cls => builtByForm cls /\ counted cls = true /\ unlisted cls = false)
         (classes st).
Proof.
  intros Hr. destruct (reachable_builtByForm st Hr) as [Hb _].
  revert Hb. apply Forall_impl. intros cls Hcls.
  split; [exact Hcls|]. now apply builtByForm_counted.
Qed.

Lemma session_rosters_are_built_by_form_witness :
  reachable sessionTwo /\ classes sessionTwo = [calcI; art] /\
  Forall (fun cls => builtByForm cls /\ counted cls = true /\ unlisted cls = false)
         (classes sessionTwo).
Proof.
  split; [exact reachable_sessionTwo|]. split; [vm_compute; reflexivity|].
  exact (session_rosters_are_built_by_form sessionTwo reachable_sessionTwo).
Defined.

(** The form that a row of such a session opens. *)
Lemma rows_open_valid_forms_aux (cls : ClassEntry) (st : State) :
  reachable st -> In cls (classes st) ->
  currentClass (dispatch (perform (ClickRow cls)) st) = cls /\
  semester cls
  = Some (encodeSemester (term (dispatch (perform (ClickRow cls)) st))
                         (year (dispatch (perform (ClickRow cls)) st))) /\
  isFormValid (dispatch (perform (ClickRow cls)) st) = true /\
  truthy_num (id cls) = true.
Proof.
  intros Hr Hin. destruct (reachable_builtByForm st Hr) as [Hb _].
  rewrite Forall_forall in Hb.
  destruct (Hb cls Hin)
    as (Hn & (g & Hg & Eg) & (v & Hv & Ev) & (t & y & Ht & Hy & Es) & (i & Ei & Hi)).
  pose proof (draft_dispatch_perform (ClickRow cls) st) as Hd. cbv beta iota in Hd.
  rewrite (parseSemester_built t y cls st Ht Hy Es) in Hd. cbn [fst snd] in Hd.
  pose proof (f_equal (fun p => fst (fst p)) Hd) as Hd1.
  pose proof (f_equal (fun p => snd (fst p)) Hd) as Hd2.
  pose proof (f_equal snd Hd) as Hd3. cbn [fst snd] in Hd1, Hd2, Hd3.
  destruct (termOptions_plain t Ht) as (Htt & _ & _).
  destruct (years_plain y Hy) as [Hyt _].
  unfold isFormValid. rewrite Hd1, Hd2, Hd3, Eg, Ev, Ei.
  cbn [truthy_str truthy_num].
  rewrite Hn, (gradeOptions_truthy g Hg), (creditOptions_truthy v Hv), Htt, Hyt.
  rewrite (lt_zero_truthy i Hi).
  repeat split. rewrite Es. unfold encodeSemester. now rewrite Htt, Hyt.
Qed.

(** X14. In such a session every row opens a form that can be submitted as
    it is: the entry is in the draft, [term] is one of the four terms,
    [year] one of the hundred years, and [isFormValid] holds. *)
Theorem rows_open_valid_forms (cls : ClassEntry) (st : State) :
  reachable st -> In cls (classes st) ->
  currentClass (dispatch (perform (ClickRow cls)) st) = cls /\
  In (term (dispatch (perform (ClickRow cls)) st)) termOptions /\
  In (year (dispatch (perform (ClickRow cls)) st)) years /\
  semester cls
  = Some (encodeSemester (term (dispatch (perform (ClickRow cls)) st))
                         (year (dispatch (perform (ClickRow cls)) st))) /\
  isFormValid (dispatch (perform (ClickRow cls)) st) = true.
Proof.
  intros Hr Hin. destruct (reachable_builtByForm st Hr) as [Hb _].
  rewrite Forall_forall in Hb.
  destruct (Hb cls Hin) as (Hn & (g & Hg & Eg) & (v & Hv & Ev) & (t & y & Ht & Hy & Es) & _).
  pose proof (draft_dispatch_perform (ClickRow cls) st) as Hd. cbv beta iota in Hd.
  rewrite (parseSemester_built t y cls st Ht Hy Es) in Hd. cbn [fst snd] in Hd.
  pose proof (f_equal (fun p => fst (fst p)) Hd) as Hd1.
  pose proof (f_equal (fun p => snd (fst p)) Hd) as Hd2.
  pose proof (f_equal snd Hd) as Hd3. cbn [fst snd] in Hd1, Hd2, Hd3.
  destruct (termOptions_plain t Ht) as (Htt & _ & _).
  destruct (years_plain y Hy) as [Hyt _].
  unfold isFormValid. rewrite Hd1, Hd2, Hd3, Eg, Ev.
  cbn [truthy_str truthy_num].
  rewrite Hn, (gradeOptions_truthy g Hg), (creditOptions_truthy v Hv), Htt, Hyt.
  repeat split; try assumption.
  rewrite Es. unfold encodeSemester. now rewrite Htt, Hyt.
Qed.

Lemma rows_open_valid_forms_witness :
  reachable sessionTwo /\ In art (classes sessionTwo) /\
  term (dispatch (perform (ClickRow art)) sessionTwo) = "Spring" /\
  isFormValid (dispatch (perform (ClickRow art)) sessionTwo) = true.
Proof.
  assert (Hin : In art (classes sessionTwo)) by (vm_compute; tauto).
  split; [exact reachable_sessionTwo|]. split; [exact Hin|].
  split; [vm_compute; reflexivity|].
  exact (proj2 (proj2 (proj2 (proj2
           (rows_open_valid_forms art sessionTwo reachable_sessionTwo Hin))))).
Defined.

Lemma withSemester_same (cls : ClassEntry) (sem : string) :
  semester cls = Some sem -> withSemester cls sem = cls.
Proof. destruct cls. cbn. now intros ->. Qed.

(** X15. In such a session, with no two equal ids in the roster, opening a
    row and submitting the form unchanged leaves the roster exactly as it
    was, and stores it. *)
Theorem open_and_submit_restores_roster (now : number) (cls : ClassEntry)
    (st : State) :
  reachable st -> distinctIds (classes st) -> In cls (classes st) ->
  classes (dispatch (perform (ClickSubmit now)) (dispatch (perform (ClickRow cls)) st))
  = classes st /\
  storage (dispatch (perform (ClickSubmit now)) (dispatch (perform (ClickRow cls)) st))
  = Some (classes st).
Proof.
  intros Hr Hd Hin.
  destruct (rows_open_valid_forms_aux cls st Hr Hin) as (Hcur & Hsem & Hv & Hid).
  set (st1 := dispatch (perform (ClickRow cls)) st) in *.
  assert (Hc1 : classes st1 = classes st)
    by (unfold st1; now rewrite classes_dispatch_perform).
  assert (He1 : isEditMode st1 = true).
  { unfold st1. now destruct (handleOpenEditModal_state cls st) as (_ & He & _). }
  assert (Hcl : classes (dispatch (perform (ClickSubmit now)) st1) = classes st).
  { rewrite classes_dispatch_perform, Hv. unfold savedClasses.
    rewrite He1, Hcur, Hid, Hc1. cbn [andb].
    rewrite (withSemester_same cls _ Hsem).
    rewrite <- (map_id (classes st)) at 2. apply map_ext_in.
    intros c Hc. destruct (same_id (id c) (id cls)) eqn:E; [|reflexivity].
    symmetry. now apply (distinctIds_unique (classes st)). }
  split; [exact Hcl|].
  rewrite storage_dispatch_perform, Hcl.
  change (perform (ClickSubmit now)) with (handleSaveClass now).
  rewrite (handleSaveClass_valid now st1 Hv). cbn [snd].
  destruct (classes st) as [|c l]; [destruct Hin|reflexivity].
Qed.

Lemma open_and_submit_restores_roster_witness :
  reachable sessionTwo /\ distinctIds (classes sessionTwo) /\
  In art (classes sessionTwo) /\
  classes (dispatch (perform (ClickSubmit timestamp))
             (dispatch (perform (ClickRow art)) sessionTwo))
  = classes sessionTwo /\
  storage (dispatch (perform (ClickSubmit timestamp))
             (dispatch (perform (ClickRow art)) sessionTwo))
  = Some (classes sessionTwo).
Proof.
  assert (Hd : distinctIds (classes sessionTwo)) by (vm_compute; repeat constructor).
  assert (Hin : In art (classes sessionTwo)) by (vm_compute; tauto).
  split; [exact reachable_sessionTwo|]. split; [exact Hd|]. split; [exact Hin|].
  exact (open_and_submit_restores_roster timestamp art sessionTwo
           reachable_sessionTwo Hd Hin).
Defined.

(** ** Totals over the roster *)

Lemma getTotalCredits_app (cs : list ClassEntry) (cls : ClassEntry) :
  getTotalCredits (cs ++ [cls]) = add (getTotalCredits cs) (creditsOrZero cls).
Proof. unfold getTotalCredits. now rewrite fold_left_app. Qed.

(** X16. Adding a class raises the total of credits by the credits of the
    class: after a valid submit in Adding mode, [getTotalCredits] is the old
    total plus the credits of the draft. *)
Theorem adding_raises_total_credits (now c : number) (st : State) :
  isFormValid st = true -> isEditMode st = false ->
  credits (currentClass st) = Some c ->
  getTotalCredits (classes (dispatch (handleSaveClass now) st))
  = add (getTotalCredits (classes st)) c.
Proof.
  intros Hv Hadd Hc.
  rewrite (classes_dispatch_save now st Hv). unfold savedClasses.
  rewrite Hadd. cbn [andb]. rewrite getTotalCredits_app. f_equal.
  unfold creditsOrZero. cbn [credits]. rewrite Hc.
  unfold isFormValid in Hv. rewrite Hc in Hv. cbn [truthy_num] in Hv.
  destruct (truthy c); [reflexivity|].
  now rewrite !andb_false_r in Hv.
Qed.

Lemma adding_raises_total_credits_witness :
  isFormValid stateArtFilled = true /\ isEditMode stateArtFilled = false /\
  credits (currentClass stateArtFilled) = Some (of_Z 2) /\
  getTotalCredits (classes stateArtFilled) = of_Z 4 /\
  getTotalCredits (classes (dispatch (handleSaveClass later) stateArtFilled))
  = of_Z 6.
Proof.
  assert (Hv : isFormValid stateArtFilled = true) by reflexivity.
  assert (Ha : isEditMode stateArtFilled = false) by reflexivity.
  assert (Hc : credits (currentClass stateArtFilled) = Some (of_Z 2)) by reflexivity.
  do 3 (split; [assumption|]). split; [vm_compute; reflexivity|].
  rewrite (adding_raises_total_credits later (of_Z 2) stateArtFilled Hv Ha Hc).
  vm_compute. reflexivity.
Defined.

(** X17. Entries without a grade or without credits never change the GPA:
    the result on a roster is the result on its counted entries, also when
    none is counted, where it is "0" as for the empty roster. *)
Theorem calculateGPA_ignores_uncounted (cs : list ClassEntry) :
  calculateGPA cs = calculateGPA (filter counted cs) /\
  (filter counted cs = [] -> calculateGPA cs = "0").
Proof.
  split; [|apply calculateGPA_nothing_counted].
  destruct (filter counted cs) as [|c l] eqn:E.
  - now rewrite (calculateGPA_nothing_counted cs E).
  - assert (Hne : cs <> []) by (intros ->; discriminate).
    rewrite (calculateGPA_counted cs Hne).
    rewrite (calculateGPA_counted (c :: l)) by discriminate.
    rewrite <- E, filter_filter. reflexivity.
Qed.

Lemma accumulate_same (acc : number * number) (a b : ClassEntry) :
  grade a = grade b -> credits a = credits b ->
  accumulate acc a = accumulate acc b.
Proof. unfold accumulate. now intros -> ->. Qed.

(** X18. The GPA depends on nothing but the grades and the credits of the
    entries, in their order: two rosters that agree on these give the same
    result, whatever the names, semesters and ids. *)
Theorem calculateGPA_depends_on_grades_and_credits (cs cs' : list ClassEntry) :
  map (fun cls => (grade cls, credits cls)) cs
  = map (fun cls => (grade cls, credits cls)) cs' ->
  calculateGPA cs = calculateGPA cs'.
Proof.
  intros Heq.
  assert (Hfold : forall acc,
             fold_left accumulate cs acc = fold_left accumulate cs' acc).
  { revert cs' Heq. induction cs as [|a cs IH]; intros [|b cs'] Heq acc;
      try discriminate; [reflexivity|].
    cbn [map] in Heq. injection Heq as Hg Hc Heq. cbn [fold_left].
    rewrite (accumulate_same acc a b Hg Hc). now apply IH. }
  destruct cs as [|a cs], cs' as [|b cs']; try discriminate; [reflexivity|].
  unfold calculateGPA. now rewrite Hfold.
Qed.

Lemma calculateGPA_depends_on_grades_and_credits_witness :
  map (fun cls => (grade cls, credits cls)) [calcI; art]
  = map (fun cls => (grade cls, credits cls)) rosterCalcArt /\
  calculateGPA [calcI; art] = calculateGPA rosterCalcArt.
Proof.
  assert (H : map (fun cls => (grade cls, credits cls)) [calcI; art]
              = map (fun cls => (grade cls, credits cls)) rosterCalcArt)
    by reflexivity.
  split; [exact H|].
  exact (calculateGPA_depends_on_grades_and_credits _ _ H).
Defined.

(** ** The semester of a submitted form is read back *)

Section RoundTrip.

Lemma split_tokens_plain (sep : ascii) (s : string) :
  Forall (fun tok => contains sep tok = false) (split sep s).
Proof.
  induction s as [|c s IH]; [repeat constructor|].
  cbn [split]. destruct (Ascii.eqb c sep) eqn:E.
  - constructor; [reflexivity|exact IH].
  - destruct (split sep s) as [|tok toks]; [repeat constructor; cbn; now rewrite E|].
    inversion IH as [|? ? Htok Htoks]; subst. constructor; [|exact Htoks].
    cbn [contains]. now rewrite E, Htok.
Qed.

Lemma getFullTermName_plain (a : string) :
  contains " " a = false ->
  contains " " (getFullTermName a) = false /\
  isAbbreviation (getFullTermName a) = false.
Proof.
  intros Ha. unfold getFullTermName.
  destruct (String.eqb a "SP") eqn:E1; [now split|].
  destruct (String.eqb a "FA") eqn:E2; [now split|].
  destruct (String.eqb a "SM") eqn:E3; [now split|].
  destruct (String.eqb a "WN") eqn:E4; [now split|].
  split; [exact Ha|]. unfold isAbbreviation. now rewrite E1, E2, E3, E4.
Qed.

(** What [handleOpenEditModal] puts in [term] and [year] is plain when what
    was there is. *)
Lemma parseSemester_plain (cls : ClassEntry) (st : State) :
  plainSemester st ->
  contains " " (fst (parseSemester cls st)) = false /\
  isAbbreviation (fst (parseSemester cls st)) = false /\
  contains " " (snd (parseSemester cls st)) = false.
Proof.
  intros Hp. unfold parseSemester.
  destruct (truthy_str (semester cls)); [|now repeat split].
  pose proof (split_tokens_plain " " (match semester cls with
                                      | Some s => s | None => "" end)) as Htok.
  destruct (split " " _) as [|a [|y [|z toks]]]; try exact Hp.
  inversion Htok as [|? ? Ha Hrest]; subst.
  inversion Hrest as [|? ? Hy _]; subst. cbn [fst snd].
  destruct (getFullTermName_plain a Ha) as [H1 H2]. now repeat split.
Qed.

Lemma plainSemester_step (a : action) (st : State) :
  fromSelectors a -> plainSemester st ->
  plainSemester (dispatch (perform a) st).
Proof.
  intros Hsel Hp. pose proof (draft_dispatch_perform a st) as Hd.
  assert (Hty : (term (dispatch (perform a) st), year (dispatch (perform a) st)) =
                match a with
                | ClickAdd => ("", "")
                | ClickRow cls => parseSemester cls st
                | ChooseTerm v => (v, year st)
                | ChooseYear v => (term st, v)
                | ClickSubmit _ => if isFormValid st then ("", "")
                                   else (term st, year st)
                | _ => (term st, year st)
                end).
  { pose proof (f_equal (fun p => (snd (fst p), snd p)) Hd) as H.
    cbn [fst snd] in H. rewrite H.
    destruct a; try reflexivity.
    - now destruct (parseSemester cls st).
    - now destruct (isFormValid st). }
  clear Hd. unfold plainSemester.
  pose proof (f_equal fst Hty) as Ht. pose proof (f_equal snd Hty) as Hy.
  cbn [fst snd] in Ht, Hy. rewrite Ht, Hy. clear Hty Ht Hy.
  destruct a as [| |cls|cls|v|v|v|v|v| |b|now]; cbn [fst snd fromSelectors] in *;
    try exact Hp.
  - now repeat split.
  - now apply parseSemester_plain.
  - destruct (termOptions_plain v Hsel) as (_ & H1 & H2).
    destruct Hp as (_ & _ & H3). now repeat split.
  - destruct (years_plain v Hsel) as [_ H1].
    destruct Hp as (H2 & H3 & _). now repeat split.
  - destruct (isFormValid st); [now repeat split|exact Hp].
Qed.

Lemma plainSemester_play (acts : list action) (st : State) :
  Forall fromSelectors acts -> plainSemester st -> plainSemester (play acts st).
Proof.
  intros Hsel. revert st. induction Hsel as [|a acts Ha _ IH]; intros st Hp;
    [exact Hp|].
  cbn [play fold_left]. apply IH. now apply plainSemester_step.
Qed.

(** The encoding of a plain term and year is read back. *)
Lemma parseSemester_encoded (t y : string) (cls : ClassEntry) (st : State) :
  truthy_string t = true -> truthy_string y = true ->
  contains " " t = false -> isAbbreviation t = false -> contains " " y = false ->
  semester cls = Some (encodeSemester t y) ->
  encodeSemester t y = getTermAbbreviation t ++ " " ++ y /\
  parseSemester cls st = (t, y).
Proof.
  intros Ht Hy Hts Hta Hys Hsem.
  destruct (getTermAbbreviation_plain t Ht Hts) as [Hat Has].
  assert (He : encodeSemester t y = getTermAbbreviation t ++ " " ++ y)
    by (unfold encodeSemester; now rewrite Ht, Hy).
  split; [exact He|].
  unfold parseSemester. rewrite Hsem, He. cbn [truthy_str].
  rewrite (truthy_string_append _ _ Hat).
  change (getTermAbbreviation t ++ " " ++ y)
    with (getTermAbbreviation t ++ String " " y).
  rewrite (split_first " " _ _ Has), (split_whole " " y Hys).
  now rewrite (getFullTermName_getTermAbbreviation t Hta).
Qed.

(** The entries that a valid submit writes carry the encoded semester. *)
Lemma savedClasses_semester (now : number) (st : State) (cls : ClassEntry) :
  In cls (savedClasses now st) -> ~ In cls (classes st) ->
  semester cls = Some (encodeSemester (term st) (year st)).
Proof.
  unfold savedClasses. intros Hin Hnew.
  destruct (isEditMode st && truthy_num (id (currentClass st))).
  - apply in_map_iff in Hin. destruct Hin as (c & Hc & Hin).
    destruct (same_id (id c) (id (currentClass st))); subst cls;
      [reflexivity|contradiction].
  - apply in_app_or in Hin. destruct Hin as [Hin|[<-|[]]];
      [contradiction|reflexivity].
Qed.

End RoundTrip.

(** C4. Whatever the user has done since the component was mounted (with
    any roster loaded, any row clicked), a term and a year that pass the
    guard of the submit round-trip: the semester written is the
    abbreviation of the term, a space and the year; every entry that the
    submit writes carries it; and opening an entry with this semester, in
    any state, sets [term] and [year] back to that term and that year. The
    term is then never one of SP, FA, SM, WN and has no space, since it is
    written only by the selector, by [getFullTermName] and as the empty
    string. *)
Theorem semester_round_trip (acts : list action) (st0 : State) (now : number) :
  term st0 = "" -> year st0 = "" -> Forall fromSelectors acts ->
  isFormValid (play acts st0) = true ->
  encodeSemester (term (play acts st0)) (year (play acts st0))
  = getTermAbbreviation (term (play acts st0)) ++ " " ++ year (play acts st0) /\
  (forall cls,
     In cls (classes (dispatch (handleSaveClass now) (play acts st0))) ->
     ~ In cls (classes (play acts st0)) ->
     semester cls
     = Some (encodeSemester (term (play acts st0)) (year (play acts st0)))) /\
  (forall cls s,
     semester cls
     = Some (encodeSemester (term (play acts st0)) (year (play acts st0))) ->
     term (dispatch (handleOpenEditModal cls) s) = term (play acts st0) /\
     year (dispatch (handleOpenEditModal cls) s) = year (play acts st0)).
Proof.
  intros Ht0 Hy0 Hsel Hv.
  assert (Hp0 : plainSemester st0).
  { unfold plainSemester. rewrite Ht0, Hy0. now repeat split. }
  destruct (plainSemester_play acts st0 Hsel Hp0) as (Hts & Hta & Hys).
  set (st := play acts st0) in *.
  assert (Htt : truthy_string (term st) = true /\ truthy_string (year st) = true).
  { unfold isFormValid in Hv.
    repeat (apply andb_true_iff in Hv; destruct Hv as [Hv ?]). now split. }
  destruct Htt as [Htt Hyt].
  split; [|split].
  - unfold encodeSemester. now rewrite Htt, Hyt.
  - intros cls Hin Hnew. rewrite (classes_dispatch_save now st Hv) in Hin.
    now apply (savedClasses_semester now st cls).
  - intros cls s Hsem.
    destruct (parseSemester_encoded (term st) (year st) cls s
                Htt Hyt Hts Hta Hys Hsem) as [_ Hparse].
    destruct (handleOpenEditModal_state cls s) as (_ & _ & _ & _ & _ & Hp).
    cbv zeta in Hp. rewrite Hparse in Hp. now inversion Hp.
Qed.

Lemma semester_round_trip_witness :
  term initialState = "" /\ year initialState = "" /\
  Forall fromSelectors calcIFilled /\
  isFormValid (play calcIFilled initialState) = true /\
  (term (play calcIFilled initialState), year (play calcIFilled initialState))
  = ("Fall", "24") /\
  classes (dispatch (handleSaveClass timestamp) (play calcIFilled initialState))
  = [calcI] /\
  semester calcI = Some "FA 24" /\
  term (dispatch (handleOpenEditModal calcI) sessionTwo) = "Fall" /\
  year (dispatch (handleOpenEditModal calcI) sessionTwo) = "24".
Proof.
  assert (Hsel : Forall fromSelectors calcIFilled).
  { repeat constructor; vm_compute; tauto. }
  assert (Hv : isFormValid (play calcIFilled initialState) = true) by reflexivity.
  do 2 (split; [reflexivity|]). split; [exact Hsel|]. split; [exact Hv|].
  split; [reflexivity|]. split; [vm_compute; reflexivity|].
  destruct (semester_round_trip calcIFilled initialState timestamp
              eq_refl eq_refl Hsel Hv) as (_ & Hwritten & Hback).
  split; [|exact (Hback calcI sessionTwo eq_refl)].
  apply (Hwritten calcI); [vm_compute; left; reflexivity|intros []].
Defined.
